(** * The training executable [research/object_detection/legacy/train.py]

    A shallow embedding of [main] and of the part of the Python runtime it
    relies on, followed by the properties of configuration loading, role
    resolution and the delegated training call.

    The executable is a single function, [main].  It is embedded in a monad
    that threads the file system and the trace of calls made to collaborators
    (loaders, [tf.gfile], [tf.train], the trainer), and whose results are
    normal return, a raised exception, or a call that never returns.  The
    collaborators themselves are not part of the file: they are the fields
    of a [Runtime] record, over which every statement is quantified.  The
    module [Sim] gives one such runtime, on which the examples run. *)

From Stdlib Require Import ZArith String Ascii DecimalString.
From stdpp Require Import gmap strings list.

Set Warnings "-register-all".
Open Scope string_scope.
Open Scope Z_scope.

(** ** Python values read from [TF_CONFIG] *)

(** A Python float, as far as [main] can observe one: its truth value and
    its conversion by [%d].  A finite float is the exact rational it
    denotes. *)
Inductive pyfloat : Type :=
| FFinite (num : Z) (den : positive)
| FInf (negative : bool)
| FNaN.

(** The values [json.loads] returns.  A dict is kept as the list of its
    entries; [dict_get] reads the first entry of a key and [dict_len] counts
    distinct keys, so that every list denotes a dict. *)
Inductive json : Type :=
| JNull
| JBool (b : bool)
| JInt (z : Z)
| JFloat (f : pyfloat)
| JStr (s : string)
| JArr (l : list json)
| JObj (d : list (string * json)).

Fixpoint dict_get (key : string) (d : list (string * json)) : option json :=
  match d with
  | [] => None
  | (k, v) :: rest => if String.eqb k key then Some v else dict_get key rest
  end.

Fixpoint dict_keys (d : list (string * json)) : list string :=
  match d with
  | [] => []
  | (k, _) :: rest =>
      k :: filter (fun k' => negb (String.eqb k k')) (dict_keys rest)
  end.

Definition dict_len (d : list (string * json)) : Z :=
  Z.of_nat (length (dict_keys d)).

(** [bool(v)] *)
Definition truthy (v : json) : bool :=
  match v with
  | JNull => false
  | JBool b => b
  | JInt z => negb (z =? 0)
  | JFloat (FFinite n _) => negb (n =? 0)
  | JFloat _ => true
  | JStr s => negb (String.eqb s "")
  | JArr l => match l with [] => false | _ => true end
  | JObj d => match d with [] => false | _ => true end
  end.

(** [needle in hay] on strings *)
Fixpoint occurs (needle hay : string) : bool :=
  String.prefix needle hay
  || match hay with
     | EmptyString => false
     | String _ rest => occurs needle rest
     end.

(** [v == s] for a string literal [s] *)
Definition eq_str (v : json) (s : string) : bool :=
  match v with
  | JStr s' => String.eqb s' s
  | _ => false
  end.

(** ** Exceptions and results *)

(** An exception is known by the classes it is an instance of (its own
    class first, then the classes it inherits from) and by [str(e)]. *)
Record exn : Type := Exn { exn_classes : list string; exn_str : string }.

Definition isinstance (e : exn) (cls : string) : bool :=
  existsb (String.eqb cls) (exn_classes e).

Definition builtin_exn (cls : string) (parents : list string) (msg : string) : exn :=
  Exn (cls :: parents ++ ["Exception"; "BaseException"]) msg.

Definition AssertionError (msg : string) : exn := builtin_exn "AssertionError" [] msg.
Definition ValueError (msg : string) : exn := builtin_exn "ValueError" [] msg.
Definition KeyError (key : string) : exn :=
  builtin_exn "KeyError" ["LookupError"] ("'" +:+ key +:+ "'").

(** Exceptions raised by the interpreter on an ill-typed operation.  Their
    text depends on the interpreter's version and is left empty. *)
Definition TypeError : exn := builtin_exn "TypeError" [] "".
Definition AttributeError : exn := builtin_exn "AttributeError" [] "".
Definition OverflowError : exn := builtin_exn "OverflowError" ["ArithmeticError"] "".

(** What a call does: it returns a value, raises, never returns ([Hang]:
    [server.join()], a training loop without end), or leaves the part of
    Python that is modelled ([Unmodelled], see [TaskSpec]). *)
Inductive result (A : Type) : Type :=
| Ok (a : A)
| Raise (e : exn)
| Hang
| Unmodelled.
Arguments Ok {A} a.
Arguments Raise {A} e.
Arguments Hang {A}.
Arguments Unmodelled {A}.

(** [needle in v] for a string literal [needle] *)
Definition py_in (needle : string) (v : json) : result bool :=
  match v with
  | JObj d => Ok (match dict_get needle d with Some _ => true | None => false end)
  | JArr l => Ok (existsb (fun x => eq_str x needle) l)
  | JStr s => Ok (occurs needle s)
  | _ => Raise TypeError
  end.

(** [v[key]] for a string literal [key] *)
Definition py_getitem (v : json) (key : string) : result json :=
  match v with
  | JObj d => match dict_get key d with
              | Some x => Ok x
              | None => Raise (KeyError key)
              end
  | _ => Raise TypeError
  end.

(** A string of the model is the UTF-8 encoding of the Python string: a
    character is one byte that starts it, followed by its continuation
    bytes (those of the form [10xxxxxx]). *)
Definition is_continuation (c : ascii) : bool :=
  (128 <=? nat_of_ascii c)%nat && (nat_of_ascii c <? 192)%nat.

(** [len(s)] on a string: the number of its characters. *)
Fixpoint str_len (s : string) : nat :=
  match s with
  | EmptyString => O
  | String c rest =>
      if is_continuation c then str_len rest else S (str_len rest)
  end.

(** [len(v)] *)
Definition py_len (v : json) : result Z :=
  match v with
  | JArr l => Ok (Z.of_nat (length l))
  | JObj d => Ok (dict_len d)
  | JStr s => Ok (Z.of_nat (str_len s))
  | _ => Raise TypeError
  end.

(** [env.get(key, None)]: only a dict has a [get] method. *)
Definition py_get (v : json) (key : string) : result json :=
  match v with
  | JObj d => Ok (default JNull (dict_get key d))
  | _ => Raise AttributeError
  end.

(** [str(z)] for an integer *)
Definition str_of_Z (z : Z) : string := NilZero.string_of_int (Z.to_int z).

(** ['%d' % v] *)
Definition format_d (v : json) : result string :=
  match v with
  | JInt z => Ok (str_of_Z z)
  | JBool b => Ok (if b then "1" else "0")
  | JFloat (FFinite n d) => Ok (str_of_Z (Z.quot n (Z.pos d)))
  | JFloat (FInf _) => Raise OverflowError
  | JFloat FNaN => Raise (ValueError "")
  | _ => Raise TypeError
  end.

(** ** Configuration bundle *)

(** The protobuf messages of the bundle.  [num_steps] is the only field
    [main] touches; the other fields of a message are kept as its text. *)
Record TrainConfig : Type := { num_steps : Z; train_fields : string }.

Inductive message : Type :=
| TrainMsg (t : TrainConfig)
| OtherMsg (kind body : string).

(** [msg.num_steps = n].  A message without that field refuses the
    assignment, and so does the field for a value outside the range of its
    declared type, with the value in the text of the exception; the
    declaration is in [train.proto], not in this file, and the range check
    is the argument [accepts]. *)
Definition set_num_steps (accepts : Z -> bool) (n : Z) (msg : message)
    : result message :=
  match msg with
  | TrainMsg t =>
      if accepts n
      then Ok (TrainMsg {| num_steps := n; train_fields := train_fields t |})
      else Raise (ValueError ("Value out of range: " +:+ str_of_Z n))
  | OtherMsg _ _ => Raise AttributeError
  end.

Definition get_num_steps (msg : message) : option Z :=
  match msg with
  | TrainMsg t => Some (num_steps t)
  | OtherMsg _ _ => None
  end.

(** ** Flags *)

Record Flags : Type := {
  FLAGS_master : string;
  FLAGS_task : Z;
  FLAGS_num_clones : Z;
  FLAGS_n_steps : Z;
  FLAGS_allow_memory_growth : bool;
  FLAGS_max_ckpt_to_keep : Z;
  FLAGS_save_interval_secs : Z;
  FLAGS_clone_on_cpu : bool;
  FLAGS_worker_replicas : Z;
  FLAGS_ps_tasks : Z;
  FLAGS_train_dir : string;
  FLAGS_reset_train : Z;
  FLAGS_enable_mixed_precision : Z;
  FLAGS_n_cpu_threads : Z;
  FLAGS_pipeline_config_path : string;
  FLAGS_train_config_path : string;
  FLAGS_input_config_path : string;
  FLAGS_model_config_path : string
}.

(** The defaults of the [flags.DEFINE_*] declarations. *)
Definition default_flags : Flags := {|
  FLAGS_master := "";
  FLAGS_task := 0;
  FLAGS_num_clones := 1;
  FLAGS_n_steps := 0;
  FLAGS_allow_memory_growth := true;
  FLAGS_max_ckpt_to_keep := 1;
  FLAGS_save_interval_secs := 600;
  FLAGS_clone_on_cpu := false;
  FLAGS_worker_replicas := 1;
  FLAGS_ps_tasks := 0;
  FLAGS_train_dir := "";
  FLAGS_reset_train := 0;
  FLAGS_enable_mixed_precision := 0;
  FLAGS_n_cpu_threads := 4;
  FLAGS_pipeline_config_path := "";
  FLAGS_train_config_path := "";
  FLAGS_input_config_path := "";
  FLAGS_model_config_path := ""
|}.

(** ** The delegated call and the trace *)

(** The arguments of [trainer.train], named after the variables [main]
    passes.  The two [functools.partial] closures are known by the message
    they capture, and the graph hook by the message it was built from. *)
Record TrainArgs : Type := {
  arg_create_input_dict_fn : message;
  arg_model_fn : message;
  arg_train_config : message;
  arg_master : string;
  arg_task : json;
  arg_num_clones : Z;
  arg_worker_replicas : Z;
  arg_clone_on_cpu : bool;
  arg_ps_tasks : Z;
  arg_worker_job_name : string;
  arg_is_chief : bool;
  arg_train_dir : string;
  arg_graph_hook_fn : option message;
  arg_allow_memory_growth : bool;
  arg_n_cpu_threads : Z;
  arg_max_ckpt_to_keep : Z;
  arg_save_interval_secs : Z;
  arg_enable_mixed_precision : Z
}.

(** One entry per call [main] makes to a collaborator, in program order.
    An entry is written when the call is made, whatever its outcome. *)
Inductive event : Type :=
| EvPrint (line : string)
| EvRmtree (path : string)
| EvMakeDirs (path : string)
| EvCopy (src dst : string)
| EvPipelineFile (path : string)
| EvMultipleFiles (model_path train_path input_path : string)
| EvClusterSpec
| EvServer (job_name task_index : json)
| EvJoin
| EvGraphRewriter (cfg : message)
| EvTrain (args : TrainArgs).

Definition is_train (ev : event) : bool :=
  match ev with EvTrain _ => true | _ => false end.

(** The events by which [main] itself writes to the file system. *)
Definition is_write (ev : event) : bool :=
  match ev with
  | EvRmtree _ | EvMakeDirs _ | EvCopy _ _ => true
  | _ => false
  end.

Definition is_create_or_copy (ev : event) : bool :=
  match ev with
  | EvMakeDirs _ | EvCopy _ _ => true
  | _ => false
  end.

(** ** Collaborators *)

(** Everything [main] calls and does not define: the process environment,
    the standard library, [tf.gfile], [config_util], [tf.train],
    [graph_rewriter_builder], [trainer] and the protobuf runtime.  A call
    on the file system returns the file system it leaves, also when it
    raises. *)
Record Runtime : Type := {
  FS : Type;
  cluster_spec : Type;
  server : Type;
  os_environ_TF_CONFIG : option string;
  os_getpid : Z;
  json_loads : string -> result json;
  py_str : json -> string;
  os_path_isdir : string -> FS -> bool;
  shutil_rmtree : string -> FS -> result unit * FS;
  gfile_MakeDirs : string -> FS -> result unit * FS;
  gfile_Copy : string -> string -> FS -> result unit * FS;
  get_configs_from_pipeline_file :
    string -> FS -> result (gmap string message);
  get_configs_from_multiple_files :
    string -> string -> string -> FS -> result (gmap string message);
  ClusterSpec : json + option cluster_spec -> result cluster_spec;
  Server : cluster_spec -> json -> json -> result server;
  server_target : server -> string;
  server_join : server -> result unit;
  graph_rewriter_builder_build : message -> result unit;
  num_steps_accepts : Z -> bool;
  trainer_train : TrainArgs -> FS -> result unit * FS
}.

(** [os.path.join(a, b)] on a POSIX system *)
Definition ends_with_slash (a : string) : bool :=
  match rev (list_ascii_of_string a) with
  | c :: _ => Ascii.eqb c "/"%char
  | [] => false
  end.

Definition os_path_join (a b : string) : string :=
  if String.prefix "/" b then b
  else if String.eqb a "" || ends_with_slash a then a +:+ b
  else a +:+ "/" +:+ b.

(** ** The program monad *)

Record State (R : Runtime) : Type := { fs : FS R; trace : list event }.
Arguments fs {R} _.
Arguments trace {R} _.
Arguments Build_State {R} _ _.

Definition M (R : Runtime) (A : Type) : Type := State R -> result A * State R.

Definition ret {R A} (a : A) : M R A := fun st => (Ok a, st).

Definition bind {R A B} (m : M R A) (k : A -> M R B) : M R B :=
  fun st =>
    match m st with
    | (Ok a, st') => k a st'
    | (Raise e, st') => (Raise e, st')
    | (Hang, st') => (Hang, st')
    | (Unmodelled, st') => (Unmodelled, st')
    end.

Notation "x <- m ;; k" := (bind m (fun x => k))
  (at level 100, m at next level, right associativity).
Notation "m ;; k" := (bind m (fun _ => k))
  (at level 100, right associativity).

(** a pure step that may raise *)
Definition lift {R A} (r : result A) : M R A := fun st => (r, st).

Definition raise {R A} (e : exn) : M R A := lift (Raise e).

(** record a call *)
Definition emit {R} (ev : event) : M R unit :=
  fun st => (Ok tt, {| fs := fs st; trace := trace st ++ [ev] |}).

(** a call that reads the file system *)
Definition read_fs {R A} (f : FS R -> result A) : M R A :=
  fun st => (f (fs st), st).

(** a call that may change the file system *)
Definition on_fs {R A} (f : FS R -> result A * FS R) : M R A :=
  fun st => let '(r, fs') := f (fs st) in (r, {| fs := fs'; trace := trace st |}).

Definition print {R} (line : string) : M R unit := emit (EvPrint line).

(** [if c: body] *)
Definition when {R} (c : bool) (body : M R unit) : M R unit :=
  if c then body else ret tt.

(** [for x in xs: body] *)
Fixpoint for_each {R A} (xs : list A) (body : A -> M R unit) : M R unit :=
  match xs with
  | [] => ret tt
  | x :: rest => body x ;; for_each rest body
  end.

(** [try: body / except cls as e: handler] *)
Definition try_except {R A} (body : M R A) (cls : string)
    (handler : exn -> M R A) : M R A :=
  fun st =>
    match body st with
    | (Raise e, st') =>
        if isinstance e cls then handler e st' else (Raise e, st')
    | other => other
    end.

(** [d[key]] on the configuration bundle *)
Definition configs_getitem {R} (configs : gmap string message) (key : string)
    : M R message :=
  match configs !! key with
  | Some msg => ret msg
  | None => raise (KeyError key)
  end.

(** ** [main] *)

Section Main.

Context {R : Runtime}.
Variable FLAGS : Flags.

(** Lines 123-125: the reset-train path. *)
Definition reset_train : M R unit :=
  if Z.eqb (FLAGS_reset_train FLAGS) 0 then ret tt
  else
    exists_ <- read_fs (fun s => Ok (os_path_isdir R (FLAGS_train_dir FLAGS) s)) ;;
    when exists_
      (print ("Removing weights folder: " +:+ FLAGS_train_dir FLAGS) ;;
       emit (EvRmtree (FLAGS_train_dir FLAGS)) ;;
       on_fs (shutil_rmtree R (FLAGS_train_dir FLAGS))).

Definition gfile_copy (src dst : string) : M R unit :=
  emit (EvCopy src dst) ;;
  on_fs (gfile_Copy R src dst).

(** Lines 127-145: the training directory, the bundle and its copies. *)
Definition load_configs : M R (gmap string message) :=
  when (Z.eqb (FLAGS_task FLAGS) 0)
    (emit (EvMakeDirs (FLAGS_train_dir FLAGS)) ;;
     on_fs (gfile_MakeDirs R (FLAGS_train_dir FLAGS))) ;;
  if negb (String.eqb (FLAGS_pipeline_config_path FLAGS) "") then
    emit (EvPipelineFile (FLAGS_pipeline_config_path FLAGS)) ;;
    configs <- read_fs (get_configs_from_pipeline_file R
                          (FLAGS_pipeline_config_path FLAGS)) ;;
    when (Z.eqb (FLAGS_task FLAGS) 0)
      (gfile_copy (FLAGS_pipeline_config_path FLAGS)
         (os_path_join (FLAGS_train_dir FLAGS) "pipeline.config")) ;;
    ret configs
  else
    emit (EvMultipleFiles (FLAGS_model_config_path FLAGS)
            (FLAGS_train_config_path FLAGS) (FLAGS_input_config_path FLAGS)) ;;
    configs <- read_fs (get_configs_from_multiple_files R
                          (FLAGS_model_config_path FLAGS)
                          (FLAGS_train_config_path FLAGS)
                          (FLAGS_input_config_path FLAGS)) ;;
    when (Z.eqb (FLAGS_task FLAGS) 0)
      (for_each [("model.config", FLAGS_model_config_path FLAGS);
                 ("train.config", FLAGS_train_config_path FLAGS);
                 ("input.config", FLAGS_input_config_path FLAGS)]
         (fun '(name, config) =>
            gfile_copy config (os_path_join (FLAGS_train_dir FLAGS) name))) ;;
    ret configs.

(** The bundle and the three messages [main] takes out of it.
    [train_config] is the object stored under ['train_config']: assigning
    its field changes the bundle too. *)
Record Bundle : Type := {
  configs : gmap string message;
  model_config : message;
  train_config : message;
  input_config : message
}.

(** Lines 147-154: the messages and the step-count override. *)
Definition select_configs (loaded : gmap string message) : M R Bundle :=
  model_config <- configs_getitem loaded "model" ;;
  train_config <- configs_getitem loaded "train_config" ;;
  overridden <-
    (if Z.gtb (FLAGS_n_steps FLAGS) 0 then
       updated <- lift (set_num_steps (num_steps_accepts R)
                          (FLAGS_n_steps FLAGS) train_config) ;;
       print ("Training for " +:+ str_of_Z (FLAGS_n_steps FLAGS) +:+ " steps") ;;
       ret (<["train_config" := updated]> loaded, updated)
     else ret (loaded, train_config)) ;;
  let '(configs, train_config) := overridden in
  input_config <- configs_getitem configs "train_input_config" ;;
  ret {| configs := configs; model_config := model_config;
         train_config := train_config; input_config := input_config |}.

(** ** Role resolution *)

(** The role parameters, named after the local variables of [main]. *)
Record Role : Type := {
  ps_tasks : Z;
  worker_replicas : Z;
  worker_job_name : string;
  task : json;
  is_chief : bool;
  master : string
}.

(** Lines 174-179: the parameters of a single worker. *)
Definition lonely_worker : Role := {|
  ps_tasks := 0;
  worker_replicas := 1;
  worker_job_name := "lonely_worker";
  task := JInt 0;
  is_chief := true;
  master := ""
|}.

(** [type('TaskSpec', (object,), task_data)]: a class whose attributes are
    the entries of the dict.  A name that starts with two underscores may
    mean something to the class machinery ([__slots__], [__qualname__]);
    such dicts are outside this model. *)
Definition TaskSpec (task_data : json) : result (list (string * json)) :=
  match task_data with
  | JObj d =>
      if existsb (String.prefix "__") (map fst d) then Unmodelled else Ok d
  | _ => Raise TypeError
  end.

(** [task_info.name] *)
Definition getattr (task_info : list (string * json)) (name : string)
    : result json :=
  match dict_get name task_info with
  | Some v => Ok v
  | None => Raise AttributeError
  end.

(** What lines 167-171 read from the environment. *)
Record Descriptor : Type := {
  cluster_data : json;
  cluster : option (cluster_spec R);
  task_info : list (string * json)
}.

(** Lines 167-171. *)
Definition read_descriptor : M R Descriptor :=
  env <- lift (json_loads R (default "{}" (os_environ_TF_CONFIG R))) ;;
  cluster_data <- lift (py_get env "cluster") ;;
  cluster <-
    (if truthy cluster_data then
       emit EvClusterSpec ;;
       spec <- lift (ClusterSpec R (inl cluster_data)) ;;
       ret (Some spec)
     else ret None) ;;
  task_entry <- lift (py_get env "task") ;;
  let task_data :=
    if truthy task_entry then task_entry
    else JObj [("type", JStr "master"); ("index", JInt 0)] in
  task_info <- lift (TaskSpec task_data) ;;
  ret {| cluster_data := cluster_data; cluster := cluster;
         task_info := task_info |}.

(** Lines 175 and 181-183, and lines 174 and 184-185:
    [cluster_data and key in cluster_data], then
    [len(cluster_data[key]) + extra], else [otherwise]. *)
Definition count_tasks (cluster_data : json) (key : string)
    (extra otherwise : Z) : result Z :=
  if truthy cluster_data then
    match py_in key cluster_data with
    | Ok true =>
        match py_getitem cluster_data key with
        | Ok tasks =>
            match py_len tasks with
            | Ok n => Ok (n + extra)
            | Raise e => Raise e
            | Hang => Hang
            | Unmodelled => Unmodelled
            end
        | Raise e => Raise e
        | Hang => Hang
        | Unmodelled => Unmodelled
        end
    | Ok false => Ok otherwise
    | Raise e => Raise e
    | Hang => Hang
    | Unmodelled => Unmodelled
    end
  else Ok otherwise.

Definition count_workers (cluster_data : json) : result Z :=
  count_tasks cluster_data "worker" 1 1.

Definition count_ps (cluster_data : json) : result Z :=
  count_tasks cluster_data "ps" 0 0.

(** ['%s/task:%d' % (type, index)] *)
Definition format_job_name (type index : json) : result string :=
  let name := match type with JStr s => s | _ => py_str R type end in
  match format_d index with
  | Ok digits => Ok (name +:+ "/task:" +:+ digits)
  | Raise e => Raise e
  | Hang => Hang
  | Unmodelled => Unmodelled
  end.

(** Lines 190-202: distributed training.  [None] is the [return] of the
    parameter-server branch. *)
Definition start_server (d : Descriptor) (worker_replicas ps_tasks : Z)
    : M R (option Role) :=
  emit EvClusterSpec ;;
  spec <- lift (ClusterSpec R (inr (cluster d))) ;;
  job_name <- lift (getattr (task_info d) "type") ;;
  task_index <- lift (getattr (task_info d) "index") ;;
  emit (EvServer job_name task_index) ;;
  server <- lift (Server R spec job_name task_index) ;;
  type <- lift (getattr (task_info d) "type") ;;
  if eq_str type "ps" then
    emit EvJoin ;;
    lift (server_join R server) ;;
    ret None
  else
    type <- lift (getattr (task_info d) "type") ;;
    index <- lift (getattr (task_info d) "index") ;;
    worker_job_name <- lift (format_job_name type index) ;;
    task <- lift (getattr (task_info d) "index") ;;
    type' <- lift (getattr (task_info d) "type") ;;
    ret (Some {| ps_tasks := ps_tasks;
                 worker_replicas := worker_replicas;
                 worker_job_name := worker_job_name;
                 task := task;
                 is_chief := eq_str type' "master";
                 master := server_target R server |}).

(** Lines 173-202. *)
Definition derive_role (d : Descriptor) : M R (option Role) :=
  worker_replicas <- lift (count_workers (cluster_data d)) ;;
  ps_tasks <- lift (count_ps (cluster_data d)) ;;
  if Z.gtb worker_replicas 1 && Z.ltb ps_tasks 1 then
    raise (ValueError "At least 1 ps task is needed for distributed training.")
  else if Z.geb worker_replicas 1 && Z.gtb ps_tasks 0 then
    start_server d worker_replicas ps_tasks
  else
    ret (Some {| ps_tasks := ps_tasks;
                 worker_replicas := worker_replicas;
                 worker_job_name := worker_job_name lonely_worker;
                 task := task lonely_worker;
                 is_chief := is_chief lonely_worker;
                 master := master lonely_worker |}).

(** Lines 167-202. *)
Definition resolve_role : M R (option Role) :=
  d <- read_descriptor ;;
  derive_role d.

(** ** Delegation *)

Definition train_args (b : Bundle) (r : Role) (hook : option message)
    : TrainArgs := {|
  arg_create_input_dict_fn := input_config b;
  arg_model_fn := model_config b;
  arg_train_config := train_config b;
  arg_master := master r;
  arg_task := task r;
  arg_num_clones := FLAGS_num_clones FLAGS;
  arg_worker_replicas := worker_replicas r;
  arg_clone_on_cpu := FLAGS_clone_on_cpu FLAGS;
  arg_ps_tasks := ps_tasks r;
  arg_worker_job_name := worker_job_name r;
  arg_is_chief := is_chief r;
  arg_train_dir := FLAGS_train_dir FLAGS;
  arg_graph_hook_fn := hook;
  arg_allow_memory_growth := FLAGS_allow_memory_growth FLAGS;
  arg_n_cpu_threads := FLAGS_n_cpu_threads FLAGS;
  arg_max_ckpt_to_keep := FLAGS_max_ckpt_to_keep FLAGS;
  arg_save_interval_secs := FLAGS_save_interval_secs FLAGS;
  arg_enable_mixed_precision := FLAGS_enable_mixed_precision FLAGS
|}.

(** Lines 204-207. *)
Definition build_graph_hook (b : Bundle) : M R (option message) :=
  match configs b !! "graph_rewriter_config" with
  | Some cfg =>
      emit (EvGraphRewriter cfg) ;;
      lift (graph_rewriter_builder_build R cfg) ;;
      ret (Some cfg)
  | None => ret None
  end.

(** Lines 213-233: the call of the trainer. *)
Definition call_trainer (args : TrainArgs) : M R unit :=
  emit (EvTrain args) ;;
  on_fs (trainer_train R args).

(** Lines 204-237. *)
Definition delegate (b : Bundle) (r : Role) : M R unit :=
  graph_rewriter_fn <- build_graph_hook b ;;
  print ("pid: " +:+ str_of_Z (os_getpid R)) ;;
  try_except (call_trainer (train_args b r graph_rewriter_fn))
    "RuntimeError"
    (fun e => print ("Ignoring annoying RuntimeError: " +:+ exn_str e)).

(** Lines 121-154: everything before the role is resolved. *)
Definition prepare : M R Bundle :=
  (if String.eqb (FLAGS_train_dir FLAGS) "" then
     raise (AssertionError "`train_dir` is missing.")
   else ret tt) ;;
  reset_train ;;
  loaded <- load_configs ;;
  select_configs loaded.

(** [main], lines 120-237.  The [deprecated] decorator only logs a warning
    before the call and is left out; the [assert] of line 121 is taken as
    enabled. *)
Definition main : M R unit :=
  b <- prepare ;;
  role <- resolve_role ;;
  match role with
  | None => ret tt
  | Some r => delegate b r
  end.

End Main.

(** ** A runtime to run [main] on

    A small in-memory stand-in for the collaborators: files and directories
    by path, loaders that read a bundle whose step count is the length of the
    file's text, a trainer and a server whose outcomes are chosen by the
    caller.  It is what the examples below are evaluated on. *)

Module Sim.

Inductive node : Type :=
| Dir
| File (text : string).

Definition files : Type := list (string * node).

Fixpoint lookup_path (p : string) (s : files) : option node :=
  match s with
  | [] => None
  | (q, n) :: rest => if String.eqb q p then Some n else lookup_path p rest
  end.

Definition isdir (p : string) (s : files) : bool :=
  match lookup_path p s with
  | Some Dir => true
  | _ => false
  end.

Definition OSError : exn := builtin_exn "OSError" [] "".
Definition NotFoundError : exn := builtin_exn "NotFoundError" ["OpError"] "".
Definition JSONDecodeError : exn := builtin_exn "JSONDecodeError" ["ValueError"] "".

(** Removes the directory and every path below it. *)
Definition rmtree (p : string) (s : files) : result unit * files :=
  if isdir p s then
    (Ok tt,
     filter (fun '(q, _) =>
               negb (String.eqb q p) && negb (String.prefix (p +:+ "/") q)) s)
  else (Raise OSError, s).

Definition MakeDirs (p : string) (s : files) : result unit * files :=
  match lookup_path p s with
  | Some (File _) => (Raise OSError, s)
  | Some Dir => (Ok tt, s)
  | None => (Ok tt, (p, Dir) :: s)
  end.

Definition Copy (src dst : string) (s : files) : result unit * files :=
  match lookup_path src s with
  | Some (File text) => (Ok tt, (dst, File text) :: s)
  | _ => (Raise NotFoundError, s)
  end.

Definition read_message (kind path : string) (s : files) : result message :=
  match lookup_path path s with
  | Some (File text) =>
      Ok (if String.eqb kind "train_config"
          then TrainMsg {| num_steps := Z.of_nat (String.length text);
                           train_fields := text |}
          else OtherMsg kind text)
  | _ => Raise NotFoundError
  end.

Definition from_pipeline_file (path : string) (s : files)
    : result (gmap string message) :=
  match read_message "model" path s, read_message "train_config" path s,
        read_message "train_input_config" path s with
  | Ok m, Ok t, Ok i =>
      Ok (<["model" := m]> (<["train_config" := t]>
            (<["train_input_config" := i]> ∅)))
  | _, _, _ => Raise NotFoundError
  end.

Definition from_multiple_files (model train input : string) (s : files)
    : result (gmap string message) :=
  match read_message "model" model s, read_message "train_config" train s,
        read_message "train_input_config" input s with
  | Ok m, Ok t, Ok i =>
      Ok (<["model" := m]> (<["train_config" := t]>
            (<["train_input_config" := i]> ∅)))
  | _, _, _ => Raise NotFoundError
  end.

(** The descriptors the examples use, with the value [json.loads] gives
    for each. *)
Definition quoted (s : string) : string :=
  String "034"%char s +:+ String "034"%char "".

Definition cluster_text (with_ps : bool) : string :=
  quoted "cluster" +:+ ": {" +:+ quoted "worker" +:+ ": ["
  +:+ quoted "w0:2222" +:+ "]"
  +:+ (if with_ps
       then ", " +:+ quoted "ps" +:+ ": [" +:+ quoted "p0:2222" +:+ "]"
       else "")
  +:+ "}".

Definition task_text (type : string) : string :=
  quoted "task" +:+ ": {" +:+ quoted "type" +:+ ": " +:+ quoted type
  +:+ ", " +:+ quoted "index" +:+ ": 0}".

Definition one_worker_text : string := "{" +:+ cluster_text false +:+ "}".
Definition one_worker : json :=
  JObj [("cluster", JObj [("worker", JArr [JStr "w0:2222"])])].

Definition ps_text : string :=
  "{" +:+ cluster_text true +:+ ", " +:+ task_text "ps" +:+ "}".
Definition ps_descriptor : json :=
  JObj [("cluster", JObj [("worker", JArr [JStr "w0:2222"]);
                          ("ps", JArr [JStr "p0:2222"])]);
        ("task", JObj [("type", JStr "ps"); ("index", JInt 0)])].

Definition worker_text : string :=
  "{" +:+ cluster_text true +:+ ", " +:+ task_text "worker" +:+ "}".
Definition worker_descriptor : json :=
  JObj [("cluster", JObj [("worker", JArr [JStr "w0:2222"]);
                          ("ps", JArr [JStr "p0:2222"])]);
        ("task", JObj [("type", JStr "worker"); ("index", JInt 0)])].

Definition no_task_text : string := "{" +:+ cluster_text true +:+ "}".
Definition no_task_descriptor : json :=
  JObj [("cluster", JObj [("worker", JArr [JStr "w0:2222"]);
                          ("ps", JArr [JStr "p0:2222"])])].

Definition loads (text : string) : result json :=
  if String.eqb text "{}" then Ok (JObj [])
  else if String.eqb text no_task_text then Ok no_task_descriptor
  else if String.eqb text one_worker_text then Ok one_worker
  else if String.eqb text ps_text then Ok ps_descriptor
  else if String.eqb text worker_text then Ok worker_descriptor
  else Raise JSONDecodeError.

Definition runtime (TF_CONFIG : option string) (joined trained : result unit)
    : Runtime := {|
  FS := files;
  cluster_spec := json;
  server := json * json;
  os_environ_TF_CONFIG := TF_CONFIG;
  os_getpid := 4242;
  json_loads := loads;
  py_str := fun _ => "?";
  os_path_isdir := isdir;
  shutil_rmtree := rmtree;
  gfile_MakeDirs := MakeDirs;
  gfile_Copy := Copy;
  get_configs_from_pipeline_file := from_pipeline_file;
  get_configs_from_multiple_files := from_multiple_files;
  ClusterSpec := fun a =>
    match a with
    | inl data => Ok data
    | inr (Some spec) => Ok spec
    | inr None => Raise TypeError
    end;
  Server := fun _ job index => Ok (job, index);
  server_target := fun _ => "grpc://localhost:2222";
  server_join := fun _ => joined;
  graph_rewriter_builder_build := fun _ => Ok tt;
  num_steps_accepts := fun n => (0 <=? n) && (n <? 2 ^ 32);
  trainer_train := fun _ s => (trained, s)
|}.

Definition disk : files :=
  [("/cfg/pipeline.config", File "model { } train_config { }");
   ("/cfg/model.config", File "ssd { }");
   ("/cfg/train.config", File "batch_size: 24");
   ("/cfg/input.config", File "tf_record_input_reader { }");
   ("/train", Dir);
   ("/train/model.ckpt-100", File "weights")].

Definition start (TF_CONFIG : option string) (joined trained : result unit)
    : State (runtime TF_CONFIG joined trained) :=
  Build_State (R := runtime TF_CONFIG joined trained) disk [].

(** The flags of a run in combined mode. *)
Definition flags (task reset n_steps : Z) : Flags := {|
  FLAGS_master := "";
  FLAGS_task := task;
  FLAGS_num_clones := 1;
  FLAGS_n_steps := n_steps;
  FLAGS_allow_memory_growth := true;
  FLAGS_max_ckpt_to_keep := 1;
  FLAGS_save_interval_secs := 600;
  FLAGS_clone_on_cpu := false;
  FLAGS_worker_replicas := 1;
  FLAGS_ps_tasks := 0;
  FLAGS_train_dir := "/train";
  FLAGS_reset_train := reset;
  FLAGS_enable_mixed_precision := 0;
  FLAGS_n_cpu_threads := 4;
  FLAGS_pipeline_config_path := "/cfg/pipeline.config";
  FLAGS_train_config_path := "";
  FLAGS_input_config_path := "";
  FLAGS_model_config_path := ""
|}.

Definition pipeline_flags : Flags := flags 0 0 0.

End Sim.

(** ** Vocabulary of the statements *)

(** [emits P m]: whatever [m] does, it only appends to the trace, and every
    entry it appends satisfies [P]. *)
Definition emits {R A} (P : event -> Prop) (m : M R A) : Prop :=
  forall st r st',
    m st = (r, st') -> exists evs, trace st' = (trace st ++ evs)%list /\ Forall P evs.

(** [reads P m]: [m] leaves the file system as it found it, and only
    appends entries that satisfy [P] to the trace. *)
Definition reads {R A} (P : event -> Prop) (m : M R A) : Prop :=
  forall st r st',
    m st = (r, st') ->
    fs st' = fs st
    /\ exists evs, trace st' = (trace st ++ evs)%list /\ Forall P evs.

Definition not_train (ev : event) : Prop := is_train ev = false.

Definition no_create_or_copy (ev : event) : Prop := is_create_or_copy ev = false.
Definition no_write (ev : event) : Prop := is_write ev = false.

(** [trains_with Q]: an entry that is a call of the trainer passes
    arguments that satisfy [Q]. *)
Definition trains_with (Q : TrainArgs -> Prop) (ev : event) : Prop :=
  forall args, ev = EvTrain args -> Q args.

(** The loads and copies of the combined mode. *)
Definition from_pipeline_only (path : string) (ev : event) : Prop :=
  match ev with
  | EvMultipleFiles _ _ _ => False
  | EvPipelineFile p => p = path
  | EvCopy src _ => src = path
  | _ => True
  end.

(** What [main] makes of the outcome of [server.join()]: the [return] of
    line 197 when the join returns, the join's outcome otherwise. *)
Definition after_join (joined : result unit) : result unit :=
  match joined with
  | Ok _ => Ok tt
  | Raise e => Raise e
  | Hang => Hang
  | Unmodelled => Unmodelled
  end.

(** What [main] does once lines 121-154 have given the bundle. *)
Definition after_prepare {R} (FLAGS : Flags) (b : Bundle) : M R unit :=
  bind resolve_role
    (fun role => match role with
                 | None => ret tt
                 | Some r => delegate FLAGS b r
                 end).

(** What [load_configs] records when every call succeeds and the [task]
    flag is 0. *)
Definition primary_events (FLAGS : Flags) : list event :=
  if negb (String.eqb (FLAGS_pipeline_config_path FLAGS) "") then
    [EvMakeDirs (FLAGS_train_dir FLAGS);
     EvPipelineFile (FLAGS_pipeline_config_path FLAGS);
     EvCopy (FLAGS_pipeline_config_path FLAGS)
       (os_path_join (FLAGS_train_dir FLAGS) "pipeline.config")]
  else
    [EvMakeDirs (FLAGS_train_dir FLAGS);
     EvMultipleFiles (FLAGS_model_config_path FLAGS)
       (FLAGS_train_config_path FLAGS) (FLAGS_input_config_path FLAGS);
     EvCopy (FLAGS_model_config_path FLAGS)
       (os_path_join (FLAGS_train_dir FLAGS) "model.config");
     EvCopy (FLAGS_train_config_path FLAGS)
       (os_path_join (FLAGS_train_dir FLAGS) "train.config");
     EvCopy (FLAGS_input_config_path FLAGS)
       (os_path_join (FLAGS_train_dir FLAGS) "input.config")].

(** The copies [load_configs] makes, as (source, destination). *)
Definition primary_copies (FLAGS : Flags) : list (string * string) :=
  if negb (String.eqb (FLAGS_pipeline_config_path FLAGS) "") then
    [(FLAGS_pipeline_config_path FLAGS,
      os_path_join (FLAGS_train_dir FLAGS) "pipeline.config")]
  else
    [(FLAGS_model_config_path FLAGS,
      os_path_join (FLAGS_train_dir FLAGS) "model.config");
     (FLAGS_train_config_path FLAGS,
      os_path_join (FLAGS_train_dir FLAGS) "train.config");
     (FLAGS_input_config_path FLAGS,
      os_path_join (FLAGS_train_dir FLAGS) "input.config")].

(** Each copy of the list succeeds, one after the other, and leads from
    [s] to [s']. *)
Fixpoint copies_succeed {R} (copies : list (string * string))
    (s s' : FS R) : Prop :=
  match copies with
  | [] => s' = s
  | (src, dst) :: rest =>
      exists s1, gfile_Copy R src dst s = (Ok tt, s1)
                 /\ copies_succeed rest s1 s'
  end.

(** The flags with other values for the three separate paths. *)
Definition with_separate_paths (FLAGS : Flags) (model train input : string)
    : Flags := {|
  FLAGS_master := FLAGS_master FLAGS;
  FLAGS_task := FLAGS_task FLAGS;
  FLAGS_num_clones := FLAGS_num_clones FLAGS;
  FLAGS_n_steps := FLAGS_n_steps FLAGS;
  FLAGS_allow_memory_growth := FLAGS_allow_memory_growth FLAGS;
  FLAGS_max_ckpt_to_keep := FLAGS_max_ckpt_to_keep FLAGS;
  FLAGS_save_interval_secs := FLAGS_save_interval_secs FLAGS;
  FLAGS_clone_on_cpu := FLAGS_clone_on_cpu FLAGS;
  FLAGS_worker_replicas := FLAGS_worker_replicas FLAGS;
  FLAGS_ps_tasks := FLAGS_ps_tasks FLAGS;
  FLAGS_train_dir := FLAGS_train_dir FLAGS;
  FLAGS_reset_train := FLAGS_reset_train FLAGS;
  FLAGS_enable_mixed_precision := FLAGS_enable_mixed_precision FLAGS;
  FLAGS_n_cpu_threads := FLAGS_n_cpu_threads FLAGS;
  FLAGS_pipeline_config_path := FLAGS_pipeline_config_path FLAGS;
  FLAGS_train_config_path := train;
  FLAGS_input_config_path := input;
  FLAGS_model_config_path := model
|}.

(** ** Inputs of the examples *)

Definition RuntimeError (msg : string) : exn := builtin_exn "RuntimeError" [] msg.

(** A run with [--n_steps]. *)
Definition steps_flags (n : Z) : Flags := Sim.flags 0 0 n.

(** A worker started with [--task] and [--reset_train]. *)
Definition worker_flags (task reset : Z) : Flags := Sim.flags task reset 0.

Definition loaded_example : gmap string message :=
  <["model" := OtherMsg "model" "ssd { }"]>
    (<["train_config" :=
         TrainMsg {| num_steps := 200000; train_fields := "batch_size: 24" |}]>
       (<["train_input_config" := OtherMsg "input" "tf_record_input_reader { }"]>
          ∅)).

(** The bundle after the override to 500 steps. *)
Definition overridden_example : Bundle := {|
  configs :=
    <["train_config" :=
        TrainMsg {| num_steps := 500; train_fields := "batch_size: 24" |}]>
      loaded_example;
  model_config := OtherMsg "model" "ssd { }";
  train_config :=
    TrainMsg {| num_steps := 500; train_fields := "batch_size: 24" |};
  input_config := OtherMsg "input" "tf_record_input_reader { }"
|}.

(** The cluster of the examples, and what lines 167-171 read from a
    descriptor that has it. *)
Definition example_cluster : json :=
  JObj [("worker", JArr [JStr "w0:2222"]); ("ps", JArr [JStr "p0:2222"])].

Definition example_descriptor (TF_CONFIG : option string)
    (joined trained : result unit) (task_info : list (string * json))
    : @Descriptor (Sim.runtime TF_CONFIG joined trained) :=
  @Build_Descriptor (Sim.runtime TF_CONFIG joined trained)
    example_cluster (Some example_cluster) task_info.

(** [isinstance(v, dict)] *)
Definition is_dict (v : json) : bool :=
  match v with JObj _ => true | _ => false end.

(** The runtime of [Sim] with a [json.loads] that returns [env] for the
    text of [TF_CONFIG], whatever it is. *)
Definition parsed_runtime (env : json) (joined trained : result unit)
    : Runtime := {|
  FS := Sim.files;
  cluster_spec := json;
  server := json * json;
  os_environ_TF_CONFIG := Some "TF_CONFIG";
  os_getpid := 4242;
  json_loads := fun _ => Ok env;
  py_str := fun _ => "?";
  os_path_isdir := Sim.isdir;
  shutil_rmtree := Sim.rmtree;
  gfile_MakeDirs := Sim.MakeDirs;
  gfile_Copy := Sim.Copy;
  get_configs_from_pipeline_file := Sim.from_pipeline_file;
  get_configs_from_multiple_files := Sim.from_multiple_files;
  ClusterSpec := ClusterSpec (Sim.runtime None joined trained);
  Server := fun _ job index => Ok (job, index);
  server_target := fun _ => "grpc://localhost:2222";
  server_join := fun _ => joined;
  graph_rewriter_builder_build := fun _ => Ok tt;
  num_steps_accepts := fun n => (0 <=? n) && (n <? 2 ^ 32);
  trainer_train := fun _ s => (trained, s)
|}.

Definition parsed_start (env : json) (joined trained : result unit)
    : State (parsed_runtime env joined trained) :=
  Build_State (R := parsed_runtime env joined trained) Sim.disk [].

(** The flags with other values for [--master], [--worker_replicas] and
    [--ps_tasks]. *)
Definition with_role_flags (FLAGS : Flags) (master : string)
    (worker_replicas ps_tasks : Z) : Flags := {|
  FLAGS_master := master;
  FLAGS_task := FLAGS_task FLAGS;
  FLAGS_num_clones := FLAGS_num_clones FLAGS;
  FLAGS_n_steps := FLAGS_n_steps FLAGS;
  FLAGS_allow_memory_growth := FLAGS_allow_memory_growth FLAGS;
  FLAGS_max_ckpt_to_keep := FLAGS_max_ckpt_to_keep FLAGS;
  FLAGS_save_interval_secs := FLAGS_save_interval_secs FLAGS;
  FLAGS_clone_on_cpu := FLAGS_clone_on_cpu FLAGS;
  FLAGS_worker_replicas := worker_replicas;
  FLAGS_ps_tasks := ps_tasks;
  FLAGS_train_dir := FLAGS_train_dir FLAGS;
  FLAGS_reset_train := FLAGS_reset_train FLAGS;
  FLAGS_enable_mixed_precision := FLAGS_enable_mixed_precision FLAGS;
  FLAGS_n_cpu_threads := FLAGS_n_cpu_threads FLAGS;
  FLAGS_pipeline_config_path := FLAGS_pipeline_config_path FLAGS;
  FLAGS_train_config_path := FLAGS_train_config_path FLAGS;
  FLAGS_input_config_path := FLAGS_input_config_path FLAGS;
  FLAGS_model_config_path := FLAGS_model_config_path FLAGS
|}.

(** The loads and copies of the three-file mode. *)
Definition from_separate_only (FLAGS : Flags) (ev : event) : Prop :=
  match ev with
  | EvPipelineFile _ => False
  | EvMultipleFiles m t i =>
      m = FLAGS_model_config_path FLAGS
      /\ t = FLAGS_train_config_path FLAGS
      /\ i = FLAGS_input_config_path FLAGS
  | EvCopy src dst =>
      (src, dst) = (FLAGS_model_config_path FLAGS,
                    os_path_join (FLAGS_train_dir FLAGS) "model.config")
      \/ (src, dst) = (FLAGS_train_config_path FLAGS,
                       os_path_join (FLAGS_train_dir FLAGS) "train.config")
      \/ (src, dst) = (FLAGS_input_config_path FLAGS,
                       os_path_join (FLAGS_train_dir FLAGS) "input.config")
  | _ => True
  end.

(** A copy that writes below the training directory. *)
Definition copies_into (dir : string) (ev : event) : Prop :=
  forall src dst, ev = EvCopy src dst -> String.prefix dir dst = true.

Definition not_rmtree (ev : event) : Prop :=
  match ev with EvRmtree _ => False | _ => True end.

(** The entries [load_configs] writes before it calls a loader. *)
Definition before_load (FLAGS : Flags) : list event :=
  (if FLAGS_task FLAGS =? 0 then [EvMakeDirs (FLAGS_train_dir FLAGS)] else [])
  ++ [if negb (String.eqb (FLAGS_pipeline_config_path FLAGS) "")
      then EvPipelineFile (FLAGS_pipeline_config_path FLAGS)
      else EvMultipleFiles (FLAGS_model_config_path FLAGS)
             (FLAGS_train_config_path FLAGS)
             (FLAGS_input_config_path FLAGS)].

(** The loader [load_configs] calls. *)
Definition chosen_loader {R} (FLAGS : Flags)
    : FS R -> result (gmap string message) :=
  if negb (String.eqb (FLAGS_pipeline_config_path FLAGS) "")
  then get_configs_from_pipeline_file R (FLAGS_pipeline_config_path FLAGS)
  else get_configs_from_multiple_files R
         (FLAGS_model_config_path FLAGS) (FLAGS_train_config_path FLAGS)
         (FLAGS_input_config_path FLAGS).

(** The tuning options [main] hands to the trainer as they are. *)
Definition passes_flags (FLAGS : Flags) (args : TrainArgs) : Prop :=
  arg_num_clones args = FLAGS_num_clones FLAGS
  /\ arg_clone_on_cpu args = FLAGS_clone_on_cpu FLAGS
  /\ arg_train_dir args = FLAGS_train_dir FLAGS
  /\ arg_allow_memory_growth args = FLAGS_allow_memory_growth FLAGS
  /\ arg_n_cpu_threads args = FLAGS_n_cpu_threads FLAGS
  /\ arg_max_ckpt_to_keep args = FLAGS_max_ckpt_to_keep FLAGS
  /\ arg_save_interval_secs args = FLAGS_save_interval_secs FLAGS
  /\ arg_enable_mixed_precision args = FLAGS_enable_mixed_precision FLAGS.

(** The calls made once the bundle is there: none of them loads a
    config or writes to the file system. *)
Definition after_bundle (ev : event) : Prop :=
  match ev with
  | EvRmtree _ | EvMakeDirs _ | EvCopy _ _
  | EvPipelineFile _ | EvMultipleFiles _ _ _ => False
  | _ => True
  end.

(** The end of a run of [main] with result [res] and final file system
    [final]: no call of the trainer; or one call, which left [final], whose
    outcome is the result of [main] unless it raised a [RuntimeError]; or
    one call that raised a [RuntimeError], followed by the print of line
    237, [main] returning normally. *)
Definition training_end {R} (res : result unit) (final : FS R)
    (after : list event) : Prop :=
  after = []
  \/ exists args disk outcome,
       trainer_train R args disk = (outcome, final)
       /\ ((exists e,
              outcome = Raise e
              /\ isinstance e "RuntimeError" = true
              /\ res = Ok tt
              /\ after = [EvTrain args;
                          EvPrint ("Ignoring annoying RuntimeError: "
                                   +:+ exn_str e)])
           \/ ((forall e,
                   outcome = Raise e -> isinstance e "RuntimeError" = false)
               /\ res = outcome
               /\ after = [EvTrain args])).

(** A run in combined mode whose pipeline file does not exist. *)
Definition missing_pipeline_flags : Flags := {|
  FLAGS_master := "";
  FLAGS_task := 0;
  FLAGS_num_clones := 1;
  FLAGS_n_steps := 0;
  FLAGS_allow_memory_growth := true;
  FLAGS_max_ckpt_to_keep := 1;
  FLAGS_save_interval_secs := 600;
  FLAGS_clone_on_cpu := false;
  FLAGS_worker_replicas := 1;
  FLAGS_ps_tasks := 0;
  FLAGS_train_dir := "/train";
  FLAGS_reset_train := 0;
  FLAGS_enable_mixed_precision := 0;
  FLAGS_n_cpu_threads := 4;
  FLAGS_pipeline_config_path := "/cfg/missing.config";
  FLAGS_train_config_path := "";
  FLAGS_input_config_path := "";
  FLAGS_model_config_path := ""
|}.

(** A run in three-file mode. *)
Definition separate_flags : Flags := {|
  FLAGS_master := "";
  FLAGS_task := 0;
  FLAGS_num_clones := 1;
  FLAGS_n_steps := 0;
  FLAGS_allow_memory_growth := true;
  FLAGS_max_ckpt_to_keep := 1;
  FLAGS_save_interval_secs := 600;
  FLAGS_clone_on_cpu := false;
  FLAGS_worker_replicas := 1;
  FLAGS_ps_tasks := 0;
  FLAGS_train_dir := "/train";
  FLAGS_reset_train := 0;
  FLAGS_enable_mixed_precision := 0;
  FLAGS_n_cpu_threads := 4;
  FLAGS_pipeline_config_path := "";
  FLAGS_train_config_path := "/cfg/train.config";
  FLAGS_input_config_path := "/cfg/input.config";
  FLAGS_model_config_path := "/cfg/model.config"
|}.

(** [ends_training m]: what [m] adds to the trace is a run of entries
    without any call of the trainer, followed by a [training_end]. *)
Definition ends_training {R} (m : M R unit) : Prop :=
  forall st res st',
    m st = (res, st') ->
    exists before after,
      trace st' = (trace st ++ before ++ after)%list
      /\ Forall not_train before
      /\ training_end res (fs st') after.

Definition no_graph_rewriter (ev : event) : Prop :=
  match ev with EvGraphRewriter _ => False | _ => True end.

(** The bundle of the examples with a graph rewriter. *)
Definition rewriter_example : Bundle := {|
  configs :=
    <["graph_rewriter_config" := OtherMsg "graph_rewriter" "quantization { }"]>
      loaded_example;
  model_config := OtherMsg "model" "ssd { }";
  train_config :=
    TrainMsg {| num_steps := 200000; train_fields := "batch_size: 24" |};
  input_config := OtherMsg "input" "tf_record_input_reader { }"
|}.

(** [returns Q m]: every value [m] returns satisfies [Q]. *)
Definition returns {R A} (Q : A -> Prop) (m : M R A) : Prop :=
  forall st a st', m st = (Ok a, st') -> Q a.

(** The runtime of [Sim] on a training directory that refuses writes:
    every copy raises. *)
Definition readonly_runtime : Runtime := {|
  FS := Sim.files;
  cluster_spec := json;
  server := json * json;
  os_environ_TF_CONFIG := None;
  os_getpid := 4242;
  json_loads := Sim.loads;
  py_str := fun _ => "?";
  os_path_isdir := Sim.isdir;
  shutil_rmtree := Sim.rmtree;
  gfile_MakeDirs := Sim.MakeDirs;
  gfile_Copy := fun _ _ s => (Raise Sim.OSError, s);
  get_configs_from_pipeline_file := Sim.from_pipeline_file;
  get_configs_from_multiple_files := Sim.from_multiple_files;
  ClusterSpec := ClusterSpec (Sim.runtime None Hang (Ok tt));
  Server := fun _ job index => Ok (job, index);
  server_target := fun _ => "grpc://localhost:2222";
  server_join := fun _ => Hang;
  graph_rewriter_builder_build := fun _ => Ok tt;
  num_steps_accepts := fun n => (0 <=? n) && (n <? 2 ^ 32);
  trainer_train := fun _ s => (Ok tt, s)
|}.

(** The messages a call of the trainer receives are those of the bundle
    [loaded], the training message with its [num_steps] overridden or
    not. *)
Definition trained_on (FLAGS : Flags) (loaded : gmap string message)
    (args : TrainArgs) : Prop :=
  loaded !! "model" = Some (arg_model_fn args)
  /\ loaded !! "train_input_config" = Some (arg_create_input_dict_fn args)
  /\ exists msg,
       loaded !! "train_config" = Some msg
       /\ (arg_train_config args = msg
           \/ exists t,
                msg = TrainMsg t
                /\ arg_train_config args
                   = TrainMsg {| num_steps := FLAGS_n_steps FLAGS;
                                 train_fields := train_fields t |}).

(** * Properties *)

(** ** What a computation adds to the trace *)

Section Emits.

Context {R : Runtime}.
Variable P : event -> Prop.

Lemma emits_lift {A} (r : result A) : emits P (lift (R := R) r).
Proof.
  intros st r' st' [= <- <-]. exists []. by rewrite app_nil_r.
Qed.

Lemma emits_ret {A} (a : A) : emits P (ret (R := R) a).
Proof. apply (emits_lift (Ok a)). Qed.

Lemma emits_read_fs {A} (f : FS R -> result A) : emits P (read_fs f).
Proof.
  intros st r' st' [= <- <-]. exists []. by rewrite app_nil_r.
Qed.

Lemma emits_on_fs {A} (f : FS R -> result A * FS R) : emits P (on_fs f).
Proof.
  intros st r' st'. unfold on_fs. destruct (f (fs st)) as [r1 s1].
  intros [= <- <-]. exists []. by rewrite app_nil_r.
Qed.

Lemma emits_emit (ev : event) : P ev -> emits P (emit (R := R) ev).
Proof.
  intros Hev st r' st' [= <- <-]. exists [ev]. split; [done | by constructor].
Qed.

Lemma emits_bind {A B} (m : M R A) (k : A -> M R B) :
  emits P m -> (forall a, emits P (k a)) -> emits P (bind m k).
Proof.
  intros Hm Hk st r st'. unfold bind.
  destruct (m st) as [[a | e | | ] st1] eqn:Em;
    destruct (Hm _ _ _ Em) as (evs1 & Ht1 & Hp1).
  - intros Ek. destruct (Hk a _ _ _ Ek) as (evs2 & Ht2 & Hp2).
    exists (evs1 ++ evs2)%list. split.
    + by rewrite Ht2, Ht1, app_assoc.
    + by apply Forall_app.
  - intros [= <- <-]. eauto.
  - intros [= <- <-]. eauto.
  - intros [= <- <-]. eauto.
Qed.

Lemma emits_when (c : bool) (body : M R unit) :
  emits P body -> emits P (when c body).
Proof. destruct c; [done | intros _; apply emits_ret]. Qed.

Lemma emits_for_each {A} (xs : list A) (body : A -> M R unit) :
  (forall x, emits P (body x)) -> emits P (for_each xs body).
Proof.
  intros Hbody. induction xs as [| x rest IH]; simpl.
  - apply emits_ret.
  - apply emits_bind; [apply Hbody | intros _; apply IH].
Qed.

Lemma emits_try_except {A} (body : M R A) (cls : string)
    (handler : exn -> M R A) :
  emits P body -> (forall e, emits P (handler e)) ->
  emits P (try_except body cls handler).
Proof.
  intros Hb Hh st r st'. unfold try_except.
  destruct (body st) as [[a | e | | ] st1] eqn:Eb;
    destruct (Hb _ _ _ Eb) as (evs1 & Ht1 & Hp1);
    try (intros [= <- <-]; eauto).
  destruct (isinstance e cls).
  - intros Eh. destruct (Hh e _ _ _ Eh) as (evs2 & Ht2 & Hp2).
    exists (evs1 ++ evs2)%list. split.
    + by rewrite Ht2, Ht1, app_assoc.
    + by apply Forall_app.
  - intros [= <- <-]. eauto.
Qed.

End Emits.

(** Walks through a computation built from the combinators above; leaves
    the conditions on the events it emits. *)
Create HintDb emits.

Ltac emits_walk :=
  repeat first
    [ solve [auto with emits nocore]
    | apply emits_ret
    | apply emits_lift
    | apply emits_read_fs
    | apply emits_on_fs
    | apply emits_bind; [| intros ?]
    | apply emits_when
    | apply emits_for_each; intros ?
    | apply emits_try_except; [| intros ?]
    | apply emits_emit
    | match goal with
      | |- emits _ (if ?c then _ else _) => destruct c
      | |- emits _ (match ?x with _ => _ end) => destruct x
      | |- emits _ (let '(_, _) := ?x in _) => destruct x
      end ].

Section Quiet.

Context {R : Runtime}.
Variable FLAGS : Flags.

Lemma configs_getitem_emits P configs key :
  emits P (configs_getitem (R := R) configs key).
Proof. unfold configs_getitem, raise. emits_walk. Qed.
Hint Resolve configs_getitem_emits : emits.

Lemma reset_train_quiet : emits not_train (reset_train (R := R) FLAGS).
Proof. unfold reset_train, print. emits_walk; reflexivity. Qed.
Hint Resolve reset_train_quiet : emits.

Lemma load_configs_quiet : emits not_train (load_configs (R := R) FLAGS).
Proof. unfold load_configs, gfile_copy. emits_walk; reflexivity. Qed.
Hint Resolve load_configs_quiet : emits.

Lemma select_configs_quiet loaded :
  emits not_train (select_configs (R := R) FLAGS loaded).
Proof. unfold select_configs, raise, print. emits_walk; reflexivity. Qed.
Hint Resolve select_configs_quiet : emits.

Lemma prepare_quiet : emits not_train (prepare (R := R) FLAGS).
Proof. unfold prepare, raise. emits_walk. Qed.

Lemma read_descriptor_quiet : emits not_train (read_descriptor (R := R)).
Proof. unfold read_descriptor. emits_walk; reflexivity. Qed.
Hint Resolve read_descriptor_quiet : emits.

Lemma start_server_quiet d wr ps :
  emits not_train (start_server (R := R) d wr ps).
Proof. unfold start_server. emits_walk; reflexivity. Qed.
Hint Resolve start_server_quiet : emits.

Lemma derive_role_quiet d : emits not_train (derive_role (R := R) d).
Proof. unfold derive_role, raise. emits_walk. Qed.
Hint Resolve derive_role_quiet : emits.

Lemma resolve_role_quiet : emits not_train (resolve_role (R := R)).
Proof. unfold resolve_role. emits_walk. Qed.

End Quiet.

#[export] Hint Resolve configs_getitem_emits reset_train_quiet
  load_configs_quiet select_configs_quiet prepare_quiet read_descriptor_quiet
  start_server_quiet derive_role_quiet resolve_role_quiet : emits.

(** ** Role resolution *)

Section RoleResolution.

Context {R : Runtime}.

Lemma count_workers_list c ws :
  dict_get "worker" c = Some (JArr ws) ->
  count_workers (JObj c) = Ok (Z.of_nat (length ws) + 1).
Proof.
  intros Hw. unfold count_workers, count_tasks. simpl. rewrite Hw.
  destruct c; [discriminate | reflexivity].
Qed.

Lemma count_ps_list c ps :
  dict_get "ps" c = Some (JArr ps) ->
  count_ps (JObj c) = Ok (Z.of_nat (length ps)).
Proof.
  intros Hp. unfold count_ps, count_tasks. simpl. rewrite Hp.
  destruct c; [discriminate |]. f_equal. lia.
Qed.

Lemma count_ps_absent c : dict_get "ps" c = None -> count_ps (JObj c) = Ok 0.
Proof.
  intros Hp. unfold count_ps, count_tasks. simpl. rewrite Hp.
  by destruct c.
Qed.

(** Splitting [main] after its first two phases. *)
Lemma main_after_descriptor (FLAGS : Flags) (st st1 st2 : State R) b d :
  prepare FLAGS st = (Ok b, st1) ->
  read_descriptor st1 = (Ok d, st2) ->
  main FLAGS st =
    bind (derive_role d)
      (fun role => match role with
                   | None => ret tt
                   | Some r => delegate FLAGS b r
                   end) st2.
Proof.
  intros Hp Hd. unfold main, resolve_role, bind. by rewrite Hp, Hd.
Qed.

Lemma trace_after_descriptor (FLAGS : Flags) (st st1 st2 : State R) b d :
  prepare FLAGS st = (Ok b, st1) ->
  read_descriptor st1 = (Ok d, st2) ->
  exists evs, trace st2 = (trace st ++ evs)%list /\ Forall not_train evs.
Proof.
  intros Hp Hd.
  destruct (prepare_quiet _ _ _ _ Hp) as (evs1 & E1 & F1).
  destruct (read_descriptor_quiet _ _ _ Hd) as (evs2 & E2 & F2).
  exists (evs1 ++ evs2)%list. split.
  - by rewrite E2, E1, app_assoc.
  - by apply Forall_app.
Qed.

(** C1: a cluster descriptor with a [worker] list of length k >= 1 and a
    [ps] list that is empty or absent makes role resolution raise the
    [ValueError] of line 188 (the spec's ConfigurationError), in whatever
    state it is reached and without any further call; [main] then ends with
    that exception, and no call of the trainer has been made. *)
Theorem workers_without_ps_fail (FLAGS : Flags) (st st1 st2 : State R)
    b d c ws :
  prepare FLAGS st = (Ok b, st1) ->
  read_descriptor st1 = (Ok d, st2) ->
  cluster_data d = JObj c ->
  dict_get "worker" c = Some (JArr ws) ->
  (1 <= length ws)%nat ->
  dict_get "ps" c = None \/ dict_get "ps" c = Some (JArr []) ->
  let error :=
    ValueError "At least 1 ps task is needed for distributed training." in
  (forall st', derive_role d st' = (Raise error, st'))
  /\ main FLAGS st = (Raise error, st2)
  /\ exists evs, trace st2 = (trace st ++ evs)%list /\ Forall not_train evs.
Proof.
  intros Hp Hd Hc Hw Hk Hps error.
  assert (Hrole : forall st', derive_role d st' = (Raise error, st')).
  { intros st'. unfold derive_role, bind, lift. rewrite Hc.
    rewrite (count_workers_list _ _ Hw).
    assert (count_ps (JObj c) = Ok 0) as ->.
    { destruct Hps as [Hn | He];
        [by apply count_ps_absent | by rewrite (count_ps_list _ _ He)]. }
    assert ((Z.of_nat (length ws) + 1 >? 1) = true) as -> by lia.
    reflexivity. }
  split; [exact Hrole |]. split.
  - rewrite (main_after_descriptor _ _ _ _ _ _ Hp Hd).
    unfold bind. by rewrite Hrole.
  - eauto using trace_after_descriptor.
Qed.

End RoleResolution.

Lemma workers_without_ps_fail_witness :
  fst (main Sim.pipeline_flags
         (Sim.start (Some Sim.one_worker_text) Hang (Ok tt)))
  = Raise (ValueError "At least 1 ps task is needed for distributed training.").
Proof.
  edestruct (workers_without_ps_fail (R := Sim.runtime (Some Sim.one_worker_text) Hang (Ok tt))
               Sim.pipeline_flags (Sim.start (Some Sim.one_worker_text) Hang (Ok tt)))
    as (_ & Hmain & _).
  - reflexivity.
  - reflexivity.
  - reflexivity.
  - reflexivity.
  - simpl. lia.
  - left. reflexivity.
  - rewrite Hmain. reflexivity.
Defined.

(** ** The calls of the trainer *)

Section TrainEvents.

Context {R : Runtime}.

Lemma emits_weaken {A} (P Q : event -> Prop) (m : M R A) :
  (forall ev, P ev -> Q ev) -> emits P m -> emits Q m.
Proof.
  intros HPQ Hm st r st' E. destruct (Hm _ _ _ E) as (evs & Ht & Hp).
  exists evs. split; [done |]. eapply Forall_impl; eauto.
Qed.

Lemma not_train_trains_with Q ev : not_train ev -> trains_with Q ev.
Proof. intros Hev args ->. discriminate Hev. Qed.

Lemma delegate_trains (FLAGS : Flags) b r :
  emits (trains_with (fun args => exists hook, args = train_args FLAGS b r hook))
    (delegate (R := R) FLAGS b r).
Proof.
  unfold delegate, build_graph_hook, call_trainer, print.
  emits_walk; intros args Heq; inversion Heq; subst; eauto.
Qed.

(** Every call of the trainer made by [main] passes the messages of the
    prepared bundle and the parameters of the resolved role. *)
Lemma main_trains (FLAGS : Flags) (st : State R) res st' :
  main FLAGS st = (res, st') ->
  exists evs,
    trace st' = (trace st ++ evs)%list
    /\ Forall (trains_with (fun args =>
                 exists b st1 role st2 hook,
                   prepare FLAGS st = (Ok b, st1)
                   /\ resolve_role st1 = (Ok (Some role), st2)
                   /\ args = train_args FLAGS b role hook)) evs.
Proof.
  unfold main, bind.
  destruct (prepare FLAGS st) as [rb st1] eqn:Hp.
  destruct (prepare_quiet _ _ _ _ Hp) as (evs1 & E1 & F1).
  assert (forall Q, Forall (trains_with Q) evs1) as F1'.
  { intros Q. eapply Forall_impl; [exact F1 |].
    intros ev. apply not_train_trains_with. }
  destruct rb as [b | e | | ]; try (intros [= <- <-]; eauto).
  destruct (resolve_role st1) as [rr st2] eqn:Hr.
  destruct (resolve_role_quiet _ _ _ Hr) as (evs2 & E2 & F2).
  assert (forall Q, Forall (trains_with Q) (evs1 ++ evs2)%list) as F12.
  { intros Q. apply Forall_app. split; [apply F1' |].
    eapply Forall_impl; [exact F2 |]. intros ev. apply not_train_trains_with. }
  assert (trace st2 = (trace st ++ (evs1 ++ evs2))%list) as E12
    by (by rewrite E2, E1, app_assoc).
  destruct rr as [[role | ] | e | | ]; try (intros [= <- <-]; eauto).
  intros Hd. destruct (delegate_trains _ _ _ _ _ _ Hd) as (evs3 & E3 & F3).
  exists ((evs1 ++ evs2) ++ evs3)%list. split.
  - rewrite E3, E12. by rewrite <- !app_assoc.
  - apply Forall_app. split; [apply F12 |].
    eapply Forall_impl; [exact F3 |].
    intros ev Hev args Eargs. destruct (Hev args Eargs) as (hook & ->).
    eauto 10.
Qed.

End TrainEvents.

(** ** The role parameters *)

Section RoleParameters.

Context {R : Runtime}.

(** C3: when [TF_CONFIG] is absent or is the text of the empty object,
    role resolution makes no call and yields the parameters of a single
    worker: no parameter server, one replica, the job name
    ["lonely_worker"], task 0, chief, and an empty master address; they are
    the parameters [main] passes on. *)
Theorem no_descriptor_lonely_worker (FLAGS : Flags) (st : State R) :
  os_environ_TF_CONFIG R = None \/ os_environ_TF_CONFIG R = Some "{}" ->
  json_loads R "{}" = Ok (JObj []) ->
  resolve_role st =
    (Ok (Some {| ps_tasks := 0;
                 worker_replicas := 1;
                 worker_job_name := "lonely_worker";
                 task := JInt 0;
                 is_chief := true;
                 master := "" |}), st)
  /\ forall st0 b,
       prepare FLAGS st0 = (Ok b, st) ->
       main FLAGS st0 = delegate FLAGS b lonely_worker st.
Proof.
  intros Henv Hloads.
  assert (resolve_role st = (Ok (Some lonely_worker), st)) as Hrole.
  { unfold resolve_role, read_descriptor, bind, lift.
    assert (default "{}" (os_environ_TF_CONFIG R) = "{}") as ->
      by (by destruct Henv as [-> | ->]).
    rewrite Hloads. reflexivity. }
  split; [exact Hrole |].
  intros st0 b Hp. unfold main, bind. by rewrite Hp, Hrole.
Qed.

(** What lines 167-168 make of the text of [TF_CONFIG]. *)
Lemma read_descriptor_cluster e (st : State R) d st' :
  json_loads R (default "{}" (os_environ_TF_CONFIG R)) = Ok (JObj e) ->
  read_descriptor st = (Ok d, st') ->
  cluster_data d = default JNull (dict_get "cluster" e).
Proof.
  intros Hloads. unfold read_descriptor. unfold bind at 1, lift at 1.
  rewrite Hloads. unfold bind, lift, emit, ret. simpl.
  destruct (truthy (default JNull (dict_get "cluster" e))); simpl.
  - destruct (ClusterSpec R _); try discriminate.
    destruct (TaskSpec _); try discriminate. by intros [= <- _].
  - destruct (TaskSpec _); try discriminate. by intros [= <- _].
Qed.

Lemma resolve_role_descriptor (st : State R) role st' :
  resolve_role st = (Ok (Some role), st') ->
  exists d st1,
    read_descriptor st = (Ok d, st1)
    /\ derive_role d st1 = (Ok (Some role), st').
Proof.
  unfold resolve_role. unfold bind at 1.
  destruct (read_descriptor st) as [[d | | | ] st1]; try discriminate.
  eauto.
Qed.

Lemma derive_role_worker_replicas d wr (st : State R) role st' :
  count_workers (cluster_data d) = Ok wr ->
  derive_role d st = (Ok (Some role), st') ->
  worker_replicas role = wr.
Proof.
  intros Hcount. unfold derive_role, bind, lift. rewrite Hcount.
  destruct (count_ps (cluster_data d)) as [ps | e | | ]; try discriminate.
  destruct (_ && _); [discriminate |].
  destruct (_ && _).
  - unfold start_server, bind, lift, emit.
    repeat match goal with
           | |- context [match ?x with _ => _ end] =>
               destruct x; try discriminate
           end;
      by intros [= <- _].
  - by intros [= <- _].
Qed.

(** C4: when the cluster of [TF_CONFIG] has a [worker] list of length k,
    the descriptor that lines 167-171 read has that cluster, the count of
    line 183 is k + 1, it is the [worker_replicas] of every role that role
    resolution yields, and it is what every call of the trainer made by
    [main] receives. *)
Theorem worker_replicas_counts_workers e c ws :
  json_loads R (default "{}" (os_environ_TF_CONFIG R)) = Ok (JObj e) ->
  dict_get "cluster" e = Some (JObj c) ->
  dict_get "worker" c = Some (JArr ws) ->
  let k := Z.of_nat (length ws) in
  count_workers (JObj c) = Ok (k + 1)
  /\ (forall (st : State R) d st',
        read_descriptor st = (Ok d, st') -> cluster_data d = JObj c)
  /\ (forall d (st : State R) role st',
        cluster_data d = JObj c ->
        derive_role d st = (Ok (Some role), st') ->
        worker_replicas role = k + 1)
  /\ (forall (st : State R) role st',
        resolve_role st = (Ok (Some role), st') ->
        worker_replicas role = k + 1)
  /\ (forall FLAGS (st : State R) res st',
        main FLAGS st = (res, st') ->
        exists evs,
          trace st' = (trace st ++ evs)%list
          /\ Forall (trains_with
                       (fun args => arg_worker_replicas args = k + 1)) evs).
Proof.
  intros Hloads Hcluster Hw k.
  assert (count_workers (JObj c) = Ok (k + 1)) as Hcount
    by (by apply count_workers_list).
  assert (forall (st : State R) d st',
             read_descriptor st = (Ok d, st') -> cluster_data d = JObj c)
    as Hread.
  { intros st d st' Hd.
    rewrite (read_descriptor_cluster _ _ _ _ Hloads Hd). by rewrite Hcluster. }
  assert (forall d (st : State R) role st',
             cluster_data d = JObj c ->
             derive_role d st = (Ok (Some role), st') ->
             worker_replicas role = k + 1) as Hderive.
  { intros d st role st' Hc. apply derive_role_worker_replicas.
    by rewrite Hc. }
  assert (forall (st : State R) role st',
             resolve_role st = (Ok (Some role), st') ->
             worker_replicas role = k + 1) as Hrole.
  { intros st role st' Hr.
    destruct (resolve_role_descriptor _ _ _ Hr) as (d & st1 & Hd & Hdr).
    eauto. }
  repeat split; try done.
  intros FLAGS st res st' Hmain.
  destruct (main_trains _ _ _ _ Hmain) as (evs & Ht & Hevs).
  exists evs. split; [exact Ht |].
  eapply Forall_impl; [exact Hevs |].
  intros ev Hev args Eargs.
  destruct (Hev args Eargs) as (b & st1 & role & st2 & hook & _ & Hr & ->).
  simpl. eauto.
Qed.

End RoleParameters.

Lemma no_descriptor_lonely_worker_witness :
  resolve_role (Sim.start None Hang (Ok tt))
  = (Ok (Some lonely_worker), Sim.start None Hang (Ok tt)).
Proof.
  apply (no_descriptor_lonely_worker (R := Sim.runtime None Hang (Ok tt))
           Sim.pipeline_flags).
  - left. reflexivity.
  - reflexivity.
Defined.

Lemma worker_replicas_counts_workers_witness :
  exists role st',
    resolve_role (Sim.start (Some Sim.worker_text) Hang (Ok tt))
    = (Ok (Some role), st')
    /\ worker_replicas role = 2
    /\ Forall (trains_with (fun args => arg_worker_replicas args = 2))
         (trace (snd (main Sim.pipeline_flags
                        (Sim.start (Some Sim.worker_text) Hang (Ok tt)))))
    /\ exists args,
         In (EvTrain args)
           (trace (snd (main Sim.pipeline_flags
                          (Sim.start (Some Sim.worker_text) Hang (Ok tt))))).
Proof.
  destruct (worker_replicas_counts_workers
              (R := Sim.runtime (Some Sim.worker_text) Hang (Ok tt))
              _ _ [JStr "w0:2222"] eq_refl eq_refl eq_refl)
    as (_ & _ & _ & Hrole & Hmain).
  eexists _, _. split; [reflexivity |]. split; [| split].
  - exact (Hrole (Sim.start (Some Sim.worker_text) Hang (Ok tt)) _ _ eq_refl).
  - destruct (Hmain Sim.pipeline_flags
                (Sim.start (Some Sim.worker_text) Hang (Ok tt)) _ _
                (surjective_pairing _))
      as (evs & Ht & Hevs).
    rewrite Ht. exact Hevs.
  - eexists. simpl. do 7 right. left. reflexivity.
Defined.

(** ** The parameter-server task *)

Section ParameterServer.

Context {R : Runtime}.

Lemma start_server_ps_no_role (d : Descriptor) wr ps (st : State R) res st' :
  getattr (task_info d) "type" = Ok (JStr "ps") ->
  start_server d wr ps st = (res, st') ->
  forall role, res <> Ok (Some role).
Proof.
  intros Hty. unfold start_server, bind, lift, emit. rewrite Hty. simpl.
  repeat match goal with
         | |- context [match ?x with _ => _ end] => destruct x
         end;
    intros [= <- _] role; discriminate.
Qed.

(** C5: in distributed mode, a task of type ["ps"] never reaches the
    trainer: no run of [main] calls it, and once the server is started
    [main] calls [server.join()] and does nothing after it; it blocks for
    as long as the join does, and returns without training if the join
    returns. *)
Theorem ps_task_joins (FLAGS : Flags) (st st1 st2 : State R) b d wr ps :
  prepare FLAGS st = (Ok b, st1) ->
  read_descriptor st1 = (Ok d, st2) ->
  count_workers (cluster_data d) = Ok wr ->
  count_ps (cluster_data d) = Ok ps ->
  1 <= wr ->
  0 < ps ->
  getattr (task_info d) "type" = Ok (JStr "ps") ->
  (forall res st',
      main FLAGS st = (res, st') ->
      exists evs, trace st' = (trace st ++ evs)%list /\ Forall not_train evs)
  /\ (forall index spec srv,
        getattr (task_info d) "index" = Ok index ->
        ClusterSpec R (inr (cluster d)) = Ok spec ->
        Server R spec (JStr "ps") index = Ok srv ->
        main FLAGS st =
          (after_join (server_join R srv),
           {| fs := fs st2;
              trace := trace st2
                       ++ [EvClusterSpec; EvServer (JStr "ps") index; EvJoin] |})).
Proof.
  intros Hp Hd Hwr Hps Hw1 Hp0 Hty.
  assert (forall st', derive_role d st' = start_server d wr ps st') as Hderive.
  { intros st'. unfold derive_role, bind, lift. rewrite Hwr, Hps.
    assert ((ps <? 1) = false) as -> by lia.
    assert ((wr >=? 1) = true) as -> by lia.
    assert ((ps >? 0) = true) as -> by lia.
    by rewrite andb_false_r. }
  split.
  - intros res st'. rewrite (main_after_descriptor _ _ _ _ _ _ Hp Hd).
    unfold bind. rewrite Hderive.
    destruct (start_server d wr ps st2) as [rr st3] eqn:Hs.
    destruct (trace_after_descriptor _ _ _ _ _ _ Hp Hd) as (evs1 & E1 & F1).
    destruct (start_server_quiet _ _ _ _ _ _ Hs) as (evs2 & E2 & F2).
    assert (exists evs, trace st3 = (trace st ++ evs)%list
                        /\ Forall not_train evs) as Hst3.
    { exists (evs1 ++ evs2)%list. split.
      - rewrite E2, E1. by rewrite <- app_assoc.
      - by apply Forall_app. }
    pose proof (start_server_ps_no_role _ _ _ _ _ _ Hty Hs) as Hno.
    destruct rr as [[role | ] | e | | ]; try (intros [= <- <-]; exact Hst3).
    by destruct (Hno role).
  - intros index spec srv Hidx Hspec Hsrv.
    rewrite (main_after_descriptor _ _ _ _ _ _ Hp Hd).
    unfold bind at 1. rewrite Hderive.
    unfold start_server, bind, lift, emit.
    rewrite Hspec, Hty, Hidx. simpl. rewrite Hsrv. simpl.
    rewrite <- !app_assoc. simpl.
    by destruct (server_join R srv) as [[] | | | ].
Qed.

End ParameterServer.

Lemma ps_task_joins_witness :
  fst (main Sim.pipeline_flags (Sim.start (Some Sim.ps_text) Hang (Ok tt)))
  = Hang.
Proof.
  edestruct (ps_task_joins (R := Sim.runtime (Some Sim.ps_text) Hang (Ok tt))
               Sim.pipeline_flags (Sim.start (Some Sim.ps_text) Hang (Ok tt)))
    as (_ & Hjoin).
  - reflexivity.
  - reflexivity.
  - reflexivity.
  - reflexivity.
  - simpl; lia.
  - simpl; lia.
  - reflexivity.
  - erewrite Hjoin; reflexivity.
Defined.

(** ** The swallowed [RuntimeError] *)

Section Delegation.

Context {R : Runtime}.

(** C2: when the trainer raises, [main] returns normally after printing
    the message of line 237 if the exception is a [RuntimeError] (an
    instance of that class or of a subclass), and ends with the exception
    itself if it is not. *)
Theorem runtime_error_swallowed (FLAGS : Flags) (st st1 st2 st3 : State R)
    b role hook e disk :
  prepare FLAGS st = (Ok b, st1) ->
  resolve_role st1 = (Ok (Some role), st2) ->
  build_graph_hook b st2 = (Ok hook, st3) ->
  trainer_train R (train_args FLAGS b role hook) (fs st3) = (Raise e, disk) ->
  let called :=
    (trace st3 ++ [EvPrint ("pid: " +:+ str_of_Z (os_getpid R));
                   EvTrain (train_args FLAGS b role hook)])%list in
  main FLAGS st =
    if isinstance e "RuntimeError" then
      (Ok tt,
       {| fs := disk;
          trace := called ++ [EvPrint ("Ignoring annoying RuntimeError: "
                                       +:+ exn_str e)] |})
    else (Raise e, {| fs := disk; trace := called |}).
Proof.
  intros Hp Hr Hg Ht called.
  unfold main, bind. rewrite Hp, Hr.
  unfold delegate, bind. rewrite Hg.
  unfold print, emit, try_except, call_trainer, bind, emit, on_fs. simpl.
  rewrite Ht. subst called.
  destruct (isinstance e "RuntimeError");
    simpl; rewrite <- ?app_assoc; reflexivity.
Qed.

End Delegation.

Lemma runtime_error_swallowed_witness :
  fst (main Sim.pipeline_flags
         (Sim.start None Hang (Raise (RuntimeError "Graph is finalized"))))
  = Ok tt.
Proof.
  pose proof (runtime_error_swallowed
                (R := Sim.runtime None Hang
                        (Raise (RuntimeError "Graph is finalized")))
                Sim.pipeline_flags
                (Sim.start None Hang (Raise (RuntimeError "Graph is finalized")))
                _ _ _ _ _ _ _ _ eq_refl eq_refl eq_refl eq_refl) as Hmain.
  rewrite Hmain. reflexivity.
Defined.

(** ** The configuration sources *)

Section ConfigSources.

Context {R : Runtime}.

Lemma pipeline_path_nonempty (FLAGS : Flags) :
  FLAGS_pipeline_config_path FLAGS <> "" ->
  negb (String.eqb (FLAGS_pipeline_config_path FLAGS) "") = true.
Proof.
  intros Hne. destruct (String.eqb_spec (FLAGS_pipeline_config_path FLAGS) "");
    [contradiction | reflexivity].
Qed.

Lemma delegate_from_pipeline_only (FLAGS : Flags) path b r :
  emits (from_pipeline_only path) (delegate (R := R) FLAGS b r).
Proof.
  unfold delegate, build_graph_hook, call_trainer, print.
  emits_walk; exact I.
Qed.

Lemma resolve_role_from_pipeline_only path :
  emits (from_pipeline_only path) (resolve_role (R := R)).
Proof.
  unfold resolve_role, read_descriptor, derive_role, start_server, raise.
  emits_walk; exact I.
Qed.

Lemma prepare_from_pipeline_only (FLAGS : Flags) :
  FLAGS_pipeline_config_path FLAGS <> "" ->
  emits (from_pipeline_only (FLAGS_pipeline_config_path FLAGS))
    (prepare (R := R) FLAGS).
Proof.
  intros Hne. unfold prepare, reset_train, load_configs.
  rewrite (pipeline_path_nonempty _ Hne).
  unfold select_configs, gfile_copy, raise, print.
  emits_walk; first [exact I | reflexivity].
Qed.

(** In combined mode, a bundle that lines 127-134 return was returned by
    the pipeline loader, called on the file system as [MakeDirs] left it. *)
Lemma load_configs_from_pipeline (FLAGS : Flags) (st : State R) loaded st' :
  FLAGS_pipeline_config_path FLAGS <> "" ->
  load_configs FLAGS st = (Ok loaded, st') ->
  exists disk,
    get_configs_from_pipeline_file R (FLAGS_pipeline_config_path FLAGS) disk
    = Ok loaded
    /\ (FLAGS_task FLAGS = 0 ->
        gfile_MakeDirs R (FLAGS_train_dir FLAGS) (fs st) = (Ok tt, disk))
    /\ (FLAGS_task FLAGS <> 0 -> disk = fs st)
    /\ exists before after,
         trace st'
         = (trace st ++ before
            ++ EvPipelineFile (FLAGS_pipeline_config_path FLAGS) :: after)%list.
Proof.
  intros Hne. unfold load_configs. rewrite (pipeline_path_nonempty _ Hne).
  unfold when, gfile_copy, bind, emit, on_fs, read_fs, ret. simpl.
  destruct (Z.eqb_spec (FLAGS_task FLAGS) 0) as [H0 | Hn0].
  - destruct (gfile_MakeDirs R _ _) as [[[] | | | ] made] eqn:Hmk;
      try discriminate.
    simpl.
    destruct (get_configs_from_pipeline_file R _ made) as [cfgs | | | ]
      eqn:Hload; try discriminate.
    simpl.
    destruct (gfile_Copy R _ _ made) as [[[] | | | ] copied];
      try discriminate.
    intros [= <- <-]. simpl. exists made. repeat split; try done.
    exists [EvMakeDirs (FLAGS_train_dir FLAGS)],
      [EvCopy (FLAGS_pipeline_config_path FLAGS)
         (os_path_join (FLAGS_train_dir FLAGS) "pipeline.config")].
    by rewrite <- !app_assoc.
  - destruct (get_configs_from_pipeline_file R _ (fs st)) as [cfgs | | | ]
      eqn:Hload; try discriminate.
    intros [= <- <-]. simpl. exists (fs st). repeat split; try done.
    by exists [], [].
Qed.

(** A bundle that lines 121-154 return was loaded by lines 127-145 and
    went through lines 147-154. *)
Lemma prepare_loaded (FLAGS : Flags) (st : State R) b st' :
  prepare FLAGS st = (Ok b, st') ->
  exists st0 loaded st1,
    load_configs FLAGS st0 = (Ok loaded, st1)
    /\ select_configs FLAGS loaded st1 = (Ok b, st').
Proof.
  unfold prepare. unfold bind at 1.
  destruct (String.eqb (FLAGS_train_dir FLAGS) ""); simpl; [discriminate |].
  unfold bind at 1.
  destruct (reset_train FLAGS st) as [[u' | | | ] s1]; try discriminate.
  unfold bind at 1.
  destruct (load_configs FLAGS s1) as [[loaded | | | ] sl] eqn:Hload;
    try discriminate.
  eauto.
Qed.

Lemma select_configs_messages (FLAGS : Flags) loaded (st : State R) b st' :
  select_configs FLAGS loaded st = (Ok b, st') ->
  loaded !! "model" = Some (model_config b)
  /\ loaded !! "train_input_config" = Some (input_config b)
  /\ exists msg,
       loaded !! "train_config" = Some msg
       /\ (train_config b = msg
           \/ exists t,
                msg = TrainMsg t
                /\ train_config b
                   = TrainMsg {| num_steps := FLAGS_n_steps FLAGS;
                                 train_fields := train_fields t |}).
Proof.
  unfold select_configs, configs_getitem, bind, raise, lift, ret, print, emit.
  destruct (loaded !! "model") as [m | ]; [| discriminate].
  destruct (loaded !! "train_config") as [msg | ]; [| discriminate].
  destruct (FLAGS_n_steps FLAGS >? 0).
  - destruct msg as [t | kind body]; [| discriminate]. simpl.
    destruct (num_steps_accepts R _); [| discriminate].
    destruct (<["train_config" := _]> loaded !! "train_input_config")
      as [i | ] eqn:Hi; [| discriminate].
    rewrite lookup_insert_ne in Hi by done.
    intros [= <- <-]. simpl. repeat split; try done. eauto 6.
  - destruct (loaded !! "train_input_config") as [i | ]; [| discriminate].
    intros [= <- <-]. simpl. repeat split; try done. eauto.
Qed.

(** C6: when [pipeline_config_path] is not empty, the three separate paths
    have no influence on what [main] does, its result, the file system and
    every call it makes being the same whatever they are; the bundle is
    read by the pipeline loader alone, and the only file copied is the
    pipeline file.  The bundle that lines 127-134 return is the one the
    pipeline loader returned for [pipeline_config_path], and the messages
    that a call of the trainer receives are those of a bundle the pipeline
    loader returned for that path. *)
Theorem pipeline_path_takes_precedence (FLAGS : Flags) (st : State R)
    model train input :
  FLAGS_pipeline_config_path FLAGS <> "" ->
  main (with_separate_paths FLAGS model train input) st = main FLAGS st
  /\ (forall res st',
        main FLAGS st = (res, st') ->
        exists evs,
          trace st' = (trace st ++ evs)%list
          /\ Forall (from_pipeline_only (FLAGS_pipeline_config_path FLAGS))
               evs)
  /\ (forall loaded st',
        load_configs FLAGS st = (Ok loaded, st') ->
        exists disk,
          get_configs_from_pipeline_file R
            (FLAGS_pipeline_config_path FLAGS) disk = Ok loaded
          /\ (FLAGS_task FLAGS = 0 ->
              gfile_MakeDirs R (FLAGS_train_dir FLAGS) (fs st)
              = (Ok tt, disk))
          /\ (FLAGS_task FLAGS <> 0 -> disk = fs st)
          /\ exists before after,
               trace st'
               = (trace st ++ before
                  ++ EvPipelineFile (FLAGS_pipeline_config_path FLAGS)
                     :: after)%list)
  /\ (forall res st',
        main FLAGS st = (res, st') ->
        exists evs,
          trace st' = (trace st ++ evs)%list
          /\ Forall
               (trains_with
                  (fun args =>
                     exists disk loaded,
                       get_configs_from_pipeline_file R
                         (FLAGS_pipeline_config_path FLAGS) disk = Ok loaded
                       /\ trained_on FLAGS loaded args)) evs).
Proof.
  intros Hne. split; [| split; [| split]].
  - unfold main, prepare, load_configs. simpl.
    rewrite (pipeline_path_nonempty _ Hne). reflexivity.
  - apply emits_bind; [by apply prepare_from_pipeline_only |].
    intros b. apply emits_bind; [apply resolve_role_from_pipeline_only |].
    intros [r | ]; [apply delegate_from_pipeline_only | apply emits_ret].
  - intros loaded st'. by apply load_configs_from_pipeline.
  - intros res st' Hmain.
    destruct (main_trains _ _ _ _ Hmain) as (evs & Ht & Hevs).
    exists evs. split; [exact Ht |].
    eapply Forall_impl; [exact Hevs |].
    intros ev Hev args Eargs.
    destruct (Hev args Eargs) as (b & st1 & role & st2 & hook & Hp & _ & ->).
    destruct (prepare_loaded _ _ _ _ Hp) as (st0 & loaded & sl & Hload & Hsel).
    destruct (load_configs_from_pipeline _ _ _ _ Hne Hload)
      as (disk & Hdisk & _).
    exists disk, loaded. split; [exact Hdisk |].
    by apply (select_configs_messages _ _ _ _ _ Hsel).
Qed.

End ConfigSources.

Lemma pipeline_path_takes_precedence_witness :
  main (with_separate_paths Sim.pipeline_flags
          "/cfg/model.config" "/cfg/train.config" "/cfg/input.config")
    (Sim.start None Hang (Ok tt))
  = main Sim.pipeline_flags (Sim.start None Hang (Ok tt))
  /\ exists loaded st',
       load_configs Sim.pipeline_flags (Sim.start None Hang (Ok tt))
       = (Ok loaded, st')
       /\ Sim.from_pipeline_file "/cfg/pipeline.config" Sim.disk = Ok loaded
       /\ exists args,
            In (EvTrain args)
              (trace (snd (main Sim.pipeline_flags
                             (Sim.start None Hang (Ok tt)))))
            /\ loaded !! "model" = Some (arg_model_fn args).
Proof.
  destruct (pipeline_path_takes_precedence
              (R := Sim.runtime None Hang (Ok tt)) Sim.pipeline_flags
              (Sim.start None Hang (Ok tt))
              "/cfg/model.config" "/cfg/train.config" "/cfg/input.config")
    as (Hsame & _ & Hload & _).
  { discriminate. }
  split; [exact Hsame |].
  eexists _, _. split; [reflexivity |].
  destruct (Hload _ _ eq_refl) as (disk & Hdisk & Hmade & _).
  pose proof (Hmade eq_refl) as Hmk. injection Hmk as <-.
  split; [exact Hdisk |].
  eexists. split; [simpl; do 4 right; left; reflexivity | reflexivity].
Defined.

(** ** The step-count override *)

Section StepOverride.

Context {R : Runtime}.
Variable FLAGS : Flags.

Lemma select_configs_steps loaded (st : State R) b st' :
  select_configs FLAGS loaded st = (Ok b, st') ->
  configs b !! "train_config" = Some (train_config b)
  /\ if FLAGS_n_steps FLAGS >? 0 then
       get_num_steps (train_config b) = Some (FLAGS_n_steps FLAGS)
       /\ fs st' = fs st
       /\ trace st' =
            (trace st
             ++ [EvPrint ("Training for " +:+ str_of_Z (FLAGS_n_steps FLAGS)
                          +:+ " steps")])%list
     else
       configs b = loaded /\ st' = st.
Proof.
  unfold select_configs, configs_getitem, bind, raise, lift, ret.
  destruct (loaded !! "model") as [m | ]; [| discriminate].
  destruct (loaded !! "train_config") as [t | ] eqn:Ht; [| discriminate].
  destruct (FLAGS_n_steps FLAGS >? 0).
  - destruct t as [t | kind body]; [| discriminate]. simpl.
    destruct (num_steps_accepts R _); [| discriminate].
    destruct (<["train_config" := _]> loaded !! "train_input_config")
      as [i | ]; [| discriminate].
    intros [= <- <-]. simpl. by rewrite lookup_insert_eq.
  - destruct (loaded !! "train_input_config") as [i | ]; [| discriminate].
    by intros [= <- <-].
Qed.

Lemma prepare_steps (st : State R) b st' :
  prepare FLAGS st = (Ok b, st') ->
  0 < FLAGS_n_steps FLAGS ->
  get_num_steps (train_config b) = Some (FLAGS_n_steps FLAGS).
Proof.
  unfold prepare. unfold bind at 1 2 3. intros Hp Hn.
  repeat match type of Hp with
         | context [match ?m ?s with _ => _ end] =>
             destruct (m s) as [[? | ? | | ] ?]; try discriminate Hp
         end.
  apply select_configs_steps in Hp as [_ Hp].
  assert ((FLAGS_n_steps FLAGS >? 0) = true) as Hgt by lia.
  rewrite Hgt in Hp. tauto.
Qed.

(** C7: whatever bundle was loaded, once lines 147-154 have run the
    ['train_config'] entry of the bundle is the message [main] holds as
    [train_config]; with a positive [n_steps] its [num_steps] is [n_steps],
    nothing but the print of line 152 having happened in between, and every
    call of the trainer made by [main] receives that step count; with an
    [n_steps] that is not positive the bundle is the loaded one,
    unchanged. *)
Theorem n_steps_overrides_num_steps :
  (forall loaded (st : State R) b st',
      select_configs FLAGS loaded st = (Ok b, st') ->
      configs b !! "train_config" = Some (train_config b)
      /\ (0 < FLAGS_n_steps FLAGS ->
            get_num_steps (train_config b) = Some (FLAGS_n_steps FLAGS)
            /\ fs st' = fs st
            /\ trace st' =
                 (trace st
                  ++ [EvPrint ("Training for "
                               +:+ str_of_Z (FLAGS_n_steps FLAGS)
                               +:+ " steps")])%list)
      /\ (FLAGS_n_steps FLAGS <= 0 ->
            configs b = loaded
            /\ loaded !! "train_config" = Some (train_config b)
            /\ st' = st))
  /\ (0 < FLAGS_n_steps FLAGS ->
      forall (st : State R) res st',
        main FLAGS st = (res, st') ->
        exists evs,
          trace st' = (trace st ++ evs)%list
          /\ Forall (trains_with
                       (fun args =>
                          get_num_steps (arg_train_config args)
                          = Some (FLAGS_n_steps FLAGS))) evs).
Proof.
  split.
  - intros loaded st b st' Hs.
    destruct (select_configs_steps _ _ _ _ Hs) as [Hb Hcase].
    split; [exact Hb |]. split.
    + intros Hn. assert ((FLAGS_n_steps FLAGS >? 0) = true) as Hgt by lia.
      by rewrite Hgt in Hcase.
    + intros Hn. assert ((FLAGS_n_steps FLAGS >? 0) = false) as Hgt by lia.
      rewrite Hgt in Hcase. destruct Hcase as [Hc ->].
      by rewrite <- Hc.
  - intros Hn st res st' Hmain.
    destruct (main_trains _ _ _ _ Hmain) as (evs & Ht & Hevs).
    exists evs. split; [exact Ht |].
    eapply Forall_impl; [exact Hevs |].
    intros ev Hev args Eargs.
    destruct (Hev args Eargs) as (b & st1 & role & st2 & hook & Hp & _ & ->).
    simpl. eauto using prepare_steps.
Qed.

End StepOverride.

Lemma n_steps_overrides_num_steps_witness :
  get_num_steps (train_config overridden_example) = Some 500
  /\ configs overridden_example !! "train_config"
     = Some (train_config overridden_example).
Proof.
  destruct (n_steps_overrides_num_steps (R := Sim.runtime None Hang (Ok tt))
              (steps_flags 500)) as [Hsel _].
  destruct (Hsel loaded_example (Sim.start None Hang (Ok tt))
              overridden_example
              (Build_State (R := Sim.runtime None Hang (Ok tt)) Sim.disk
                 [EvPrint "Training for 500 steps"])
              eq_refl)
    as (Hb & Hpos & _).
  destruct (Hpos eq_refl) as (Hn & _).
  split; [exact Hn | exact Hb].
Defined.

(** ** Computations that leave the file system alone *)

Section Reads.

Context {R : Runtime}.
Variable P : event -> Prop.

Lemma reads_lift {A} (r : result A) : reads P (lift (R := R) r).
Proof.
  intros st r' st' [= <- <-]. split; [done |].
  exists []. by rewrite app_nil_r.
Qed.

Lemma reads_ret {A} (a : A) : reads P (ret (R := R) a).
Proof. apply (reads_lift (Ok a)). Qed.

Lemma reads_read_fs {A} (f : FS R -> result A) : reads P (read_fs f).
Proof.
  intros st r' st' [= <- <-]. split; [done |].
  exists []. by rewrite app_nil_r.
Qed.

Lemma reads_emit (ev : event) : P ev -> reads P (emit (R := R) ev).
Proof.
  intros Hev st r' st' [= <- <-]. split; [done |].
  exists [ev]. split; [done | by constructor].
Qed.

Lemma reads_bind {A B} (m : M R A) (k : A -> M R B) :
  reads P m -> (forall a, reads P (k a)) -> reads P (bind m k).
Proof.
  intros Hm Hk st r st'. unfold bind.
  destruct (m st) as [[a | e | | ] st1] eqn:Em;
    destruct (Hm _ _ _ Em) as (Hfs1 & evs1 & Ht1 & Hp1);
    try (intros [= <- <-]; eauto).
  intros Ek. destruct (Hk a _ _ _ Ek) as (Hfs2 & evs2 & Ht2 & Hp2).
  split; [congruence |].
  exists (evs1 ++ evs2)%list. split.
  - rewrite Ht2, Ht1. by rewrite <- app_assoc.
  - by apply Forall_app.
Qed.

Lemma reads_emits {A} (m : M R A) : reads P m -> emits P m.
Proof. intros Hm st r st' E. by destruct (Hm _ _ _ E). Qed.

End Reads.

Ltac reads_walk :=
  repeat first
    [ apply reads_ret
    | apply reads_lift
    | apply reads_read_fs
    | apply reads_bind; [| intros ?]
    | apply reads_emit
    | match goal with
      | |- reads _ (if ?c then _ else _) => destruct c
      | |- reads _ (match ?x with _ => _ end) => destruct x
      | |- reads _ (let '(_, _) := ?x in _) => destruct x
      end ].

(** ** Writes to the training directory *)

Section TrainingDirectory.

Context {R : Runtime}.
Variable FLAGS : Flags.

Lemma after_prepare_emits P b :
  (forall ev, no_write ev -> P ev) -> emits P (after_prepare (R := R) FLAGS b).
Proof.
  intros HP. unfold after_prepare. apply emits_bind.
  - unfold resolve_role, read_descriptor, derive_role, start_server, raise.
    emits_walk; by apply HP.
  - intros [r | ]; [| apply emits_ret].
    unfold delegate, build_graph_hook, call_trainer, print.
    emits_walk; by apply HP.
Qed.

Lemma after_prepare_no_write P :
  (forall ev, no_write ev -> P ev) ->
  emits P (prepare (R := R) FLAGS) ->
  emits P (main (R := R) FLAGS).
Proof.
  intros HP Hprep. unfold main. apply emits_bind; [exact Hprep |].
  intros b. by apply (after_prepare_emits P b).
Qed.

Lemma other_task_no_create_or_copy :
  FLAGS_task FLAGS <> 0 ->
  emits no_create_or_copy (main (R := R) FLAGS).
Proof.
  intros Htask. apply after_prepare_no_write.
  { by intros [] . }
  assert ((FLAGS_task FLAGS =? 0) = false) as Hne by lia.
  unfold prepare, reset_train, load_configs. rewrite Hne.
  unfold select_configs, raise, print, when.
  emits_walk; reflexivity.
Qed.

Lemma reset_train_inactive (st : State R) :
  FLAGS_reset_train FLAGS = 0
  \/ os_path_isdir R (FLAGS_train_dir FLAGS) (fs st) = false ->
  reset_train FLAGS st = (Ok tt, st).
Proof.
  intros Hcase. unfold reset_train.
  destruct (FLAGS_reset_train FLAGS =? 0) eqn:Hz; [done |].
  destruct Hcase as [H0 | Hdir]; [lia |].
  unfold bind, read_fs. by rewrite Hdir.
Qed.

Lemma other_task_load :
  (FLAGS_task FLAGS =? 0) = false ->
  reads no_write (bind (load_configs (R := R) FLAGS) (select_configs FLAGS)).
Proof.
  intros Hne. unfold load_configs. rewrite Hne.
  unfold select_configs, configs_getitem, when, raise, print.
  reads_walk; reflexivity.
Qed.

Lemma other_task_prepare (st : State R) res st' :
  FLAGS_task FLAGS <> 0 ->
  FLAGS_reset_train FLAGS = 0
  \/ os_path_isdir R (FLAGS_train_dir FLAGS) (fs st) = false ->
  prepare FLAGS st = (res, st') ->
  fs st' = fs st
  /\ exists evs, trace st' = (trace st ++ evs)%list /\ Forall no_write evs.
Proof.
  intros Htask Hreset.
  assert ((FLAGS_task FLAGS =? 0) = false) as Hne by lia.
  unfold prepare. unfold bind at 1 2.
  destruct (String.eqb _ _); simpl.
  { intros [= <- <-]. split; [done |]. exists []. by rewrite app_nil_r. }
  rewrite (reset_train_inactive _ Hreset).
  by apply other_task_load.
Qed.

Lemma primary_load (st : State R) loaded st' :
  FLAGS_task FLAGS = 0 ->
  load_configs FLAGS st = (Ok loaded, st') ->
  trace st' = (trace st ++ primary_events FLAGS)%list
  /\ exists s1,
       gfile_MakeDirs R (FLAGS_train_dir FLAGS) (fs st) = (Ok tt, s1)
       /\ copies_succeed (primary_copies FLAGS) s1 (fs st').
Proof.
  intros Htask. unfold load_configs, primary_events, primary_copies.
  rewrite Htask. simpl.
  unfold gfile_copy, bind, emit, on_fs, read_fs, ret. simpl.
  destruct (gfile_MakeDirs R _ _) as [[[] | | | ] s1] eqn:Em;
    try discriminate.
  destruct (negb _); simpl.
  - destruct (get_configs_from_pipeline_file R _ _); try discriminate.
    destruct (gfile_Copy R _ _ _) as [[[] | | | ] s2] eqn:E2;
      try discriminate.
    intros [= <- <-]. simpl. rewrite <- !app_assoc.
    split; [reflexivity | eauto].
  - destruct (get_configs_from_multiple_files R _ _ _ _); try discriminate.
    destruct (gfile_Copy R _ _ _) as [[[] | | | ] s2] eqn:E2;
      try discriminate.
    simpl.
    destruct (gfile_Copy R _ _ s2) as [[[] | | | ] s3] eqn:E3;
      try discriminate.
    simpl.
    destruct (gfile_Copy R _ _ s3) as [[[] | | | ] s4] eqn:E4;
      try discriminate.
    intros [= <- <-]. simpl. rewrite <- !app_assoc.
    split; [reflexivity | eauto 10].
Qed.

Lemma other_task_main (st : State R) res st' :
  FLAGS_task FLAGS <> 0 ->
  FLAGS_reset_train FLAGS = 0
  \/ os_path_isdir R (FLAGS_train_dir FLAGS) (fs st) = false ->
  main FLAGS st = (res, st') ->
  exists evs, trace st' = (trace st ++ evs)%list /\ Forall no_write evs.
Proof.
  intros Htask Hreset. unfold main.
  change (bind (prepare FLAGS) (after_prepare FLAGS) st = (res, st') ->
          exists evs, trace st' = (trace st ++ evs)%list
                      /\ Forall no_write evs).
  unfold bind at 1.
  destruct (prepare FLAGS st) as [rb st1] eqn:Hp.
  destruct (other_task_prepare _ _ _ Htask Hreset Hp) as (_ & evs1 & E1 & F1).
  destruct rb as [b | e | | ]; try (intros [= <- <-]; eauto).
  intros Ha.
  destruct (after_prepare_emits no_write b (fun _ H => H) _ _ _ Ha)
    as (evs2 & E2 & F2).
  exists (evs1 ++ evs2)%list. split.
  - rewrite E2, E1. by rewrite <- app_assoc.
  - by apply Forall_app.
Qed.

(** C8, as the code has it: with the [task] flag at 0, a run of lines
    127-145 that succeeds has created the training directory and copied
    the resolved config file(s) into it ([pipeline.config] in combined
    mode; [model.config], [train.config] and [input.config] in three-file
    mode), and has made exactly these calls; with any other value of the
    flag [main] never creates a directory nor copies a file, and when
    [reset_train] is 0 or the training directory does not exist it makes no
    write to the file system at all: lines 121-154 leave the file system
    as it was. *)
Theorem only_primary_task_writes (st : State R) :
  (FLAGS_task FLAGS = 0 ->
   forall loaded st',
     load_configs FLAGS st = (Ok loaded, st') ->
     trace st' = (trace st ++ primary_events FLAGS)%list
     /\ exists s1,
          gfile_MakeDirs R (FLAGS_train_dir FLAGS) (fs st) = (Ok tt, s1)
          /\ copies_succeed (primary_copies FLAGS) s1 (fs st'))
  /\ (FLAGS_task FLAGS <> 0 ->
      (forall res st',
          main FLAGS st = (res, st') ->
          exists evs,
            trace st' = (trace st ++ evs)%list
            /\ Forall no_create_or_copy evs)
      /\ (FLAGS_reset_train FLAGS = 0
          \/ os_path_isdir R (FLAGS_train_dir FLAGS) (fs st) = false ->
          (forall res st', prepare FLAGS st = (res, st') -> fs st' = fs st)
          /\ (forall res st',
                main FLAGS st = (res, st') ->
                exists evs,
                  trace st' = (trace st ++ evs)%list
                  /\ Forall no_write evs))).
Proof.
  split.
  - intros Htask loaded st'. by apply primary_load.
  - intros Htask. split.
    + intros res st'. by apply other_task_no_create_or_copy.
    + intros Hreset. split.
      * intros res st' Hp.
        by destruct (other_task_prepare _ _ _ Htask Hreset Hp).
      * intros res st'. by apply other_task_main.
Qed.

End TrainingDirectory.

(** C8, as stated, fails: a process whose [task] flag is 1 and whose
    [reset_train] flag is set deletes the training directory it finds. *)
Lemma other_task_leaves_directory_counterexample :
  ~ (forall (R : Runtime) (FLAGS : Flags) (st : State R) res st',
        FLAGS_task FLAGS <> 0 ->
        main FLAGS st = (res, st') ->
        exists evs,
          trace st' = (trace st ++ evs)%list /\ Forall no_write evs).
Proof.
  intros Hclaim.
  destruct (Hclaim (Sim.runtime None Hang (Ok tt)) (worker_flags 1 1)
              (Sim.start None Hang (Ok tt)) _ _ ltac:(discriminate) eq_refl)
    as (evs & Hevs & Hno).
  simpl in Hevs. subst evs.
  apply Forall_cons in Hno as [_ Hno].
  apply Forall_cons in Hno as [Hrm _].
  discriminate Hrm.
Qed.

(** The same run, on the file system: the directory and the checkpoint in
    it are there before, and gone when the trainer is called. *)
Example worker_reset_run :
  let st := Sim.start None Hang (Ok tt) in
  let st' := snd (prepare (worker_flags 1 1) st) in
  Sim.isdir "/train" (fs st) = true
  /\ Sim.lookup_path "/train/model.ckpt-100" (fs st) = Some (Sim.File "weights")
  /\ Sim.isdir "/train" (fs st') = false
  /\ Sim.lookup_path "/train/model.ckpt-100" (fs st') = None
  /\ trace st' = [EvPrint "Removing weights folder: /train";
                  EvRmtree "/train";
                  EvPipelineFile "/cfg/pipeline.config"].
Proof. repeat split. Qed.

Lemma only_primary_task_writes_witness :
  fs (snd (prepare (worker_flags 1 0) (Sim.start None Hang (Ok tt))))
  = Sim.disk
  /\ trace (snd (load_configs (worker_flags 0 0) (Sim.start None Hang (Ok tt))))
     = [EvMakeDirs "/train";
        EvPipelineFile "/cfg/pipeline.config";
        EvCopy "/cfg/pipeline.config" "/train/pipeline.config"].
Proof.
  split.
  - destruct (only_primary_task_writes
                (R := Sim.runtime None Hang (Ok tt)) (worker_flags 1 0)
                (Sim.start None Hang (Ok tt))) as [_ Hother].
    destruct (Hother ltac:(discriminate)) as [_ Hquiet].
    destruct (Hquiet (or_introl eq_refl)) as [Hfs _].
    eapply Hfs. apply surjective_pairing.
  - destruct (only_primary_task_writes
                (R := Sim.runtime None Hang (Ok tt)) (worker_flags 0 0)
                (Sim.start None Hang (Ok tt))) as [Hprimary _].
    edestruct (Hprimary eq_refl) as [Htrace _].
    + reflexivity.
    + exact Htrace.
Defined.

(** ** The reset-train path *)

Section ResetTrain.

Context {R : Runtime}.
Variable FLAGS : Flags.

(** C9: running lines 123-125 a second time, after a first run that
    returned, returns too and does nothing: no deletion is attempted, the
    directory being absent by then whenever the first run deleted it
    (a [shutil.rmtree] that returns leaves no directory at that path).
    The path only deletes a directory that exists: on a state without the
    directory it makes no call at all. *)
Theorem reset_train_idempotent (st st1 : State R) :
  (forall s',
      shutil_rmtree R (FLAGS_train_dir FLAGS) (fs st) = (Ok tt, s') ->
      os_path_isdir R (FLAGS_train_dir FLAGS) s' = false) ->
  reset_train FLAGS st = (Ok tt, st1) ->
  reset_train FLAGS st1 = (Ok tt, st1)
  /\ forall st' : State R,
       os_path_isdir R (FLAGS_train_dir FLAGS) (fs st') = false ->
       reset_train FLAGS st' = (Ok tt, st').
Proof.
  intros Hrm Hfirst. split.
  - revert Hfirst. unfold reset_train.
    destruct (FLAGS_reset_train FLAGS =? 0) eqn:Hz.
    { by intros [= <-]. }
    unfold bind at 1. unfold read_fs.
    destruct (os_path_isdir R _ (fs st)) eqn:Hdir; simpl.
    + unfold print, bind, emit, on_fs. simpl.
      destruct (shutil_rmtree R _ (fs st)) as [[[] | | | ] s'] eqn:Erm;
        try discriminate.
      intros [= <-]. unfold read_fs. simpl. by rewrite (Hrm s' eq_refl).
    + intros [= <-]. unfold bind, read_fs. by rewrite Hdir.
  - intros st' Hdir. apply reset_train_inactive. by right.
Qed.

End ResetTrain.

Lemma reset_train_idempotent_witness :
  let st1 := snd (reset_train (worker_flags 0 1) (Sim.start None Hang (Ok tt))) in
  Sim.isdir "/train" (fs st1) = false
  /\ reset_train (worker_flags 0 1) st1 = (Ok tt, st1).
Proof.
  split; [reflexivity |].
  apply (reset_train_idempotent (R := Sim.runtime None Hang (Ok tt))
           (worker_flags 0 1) (Sim.start None Hang (Ok tt))).
  - intros s' Hrm. injection Hrm as <-. reflexivity.
  - reflexivity.
Defined.

(** ** The default task *)

Section DefaultTask.

Context {R : Runtime}.

(** C10: when the descriptor has no [task] entry, or an empty one, the
    task is of type ["master"] with index 0; in distributed mode, once the
    server is started, the role is then the job ["master/task:0"], task 0,
    chief, with the server's target as master address. *)
Theorem default_task_is_master (st st1 : State R) e d :
  json_loads R (default "{}" (os_environ_TF_CONFIG R)) = Ok (JObj e) ->
  (forall v, dict_get "task" e = Some v -> truthy v = false) ->
  read_descriptor st = (Ok d, st1) ->
  task_info d = [("type", JStr "master"); ("index", JInt 0)]
  /\ forall wr ps spec srv (st2 : State R),
       count_workers (cluster_data d) = Ok wr ->
       count_ps (cluster_data d) = Ok ps ->
       1 <= wr ->
       0 < ps ->
       ClusterSpec R (inr (cluster d)) = Ok spec ->
       Server R spec (JStr "master") (JInt 0) = Ok srv ->
       derive_role d st2 =
         (Ok (Some {| ps_tasks := ps;
                      worker_replicas := wr;
                      worker_job_name := "master/task:0";
                      task := JInt 0;
                      is_chief := true;
                      master := server_target R srv |}),
          {| fs := fs st2;
             trace := trace st2
                      ++ [EvClusterSpec;
                          EvServer (JStr "master") (JInt 0)] |}).
Proof.
  intros Hloads Htask Hd.
  assert (task_info d = [("type", JStr "master"); ("index", JInt 0)]) as Hinfo.
  { revert Hd. unfold read_descriptor. unfold bind at 1, lift at 1.
    rewrite Hloads. simpl.
    assert (truthy (default JNull (dict_get "task" e)) = false) as Hfalse.
    { destruct (dict_get "task" e) as [v | ]; [by apply Htask | done]. }
    unfold bind, lift, emit, ret. rewrite Hfalse. simpl.
    destruct (truthy (default JNull (dict_get "cluster" e))); simpl.
    - destruct (ClusterSpec R _); try discriminate. by intros [= <- _].
    - by intros [= <- _]. }
  split; [exact Hinfo |].
  intros wr ps spec srv st2 Hwr Hps Hw1 Hp0 Hspec Hsrv.
  unfold derive_role, bind, lift. rewrite Hwr, Hps.
  assert ((ps <? 1) = false) as -> by lia.
  assert ((wr >=? 1) = true) as -> by lia.
  assert ((ps >? 0) = true) as -> by lia.
  rewrite andb_false_r. simpl.
  unfold start_server, bind, lift, emit, ret.
  rewrite Hspec, Hinfo. simpl. rewrite Hsrv. simpl.
  by rewrite <- !app_assoc.
Qed.

End DefaultTask.

Lemma default_task_is_master_witness :
  fst (resolve_role (Sim.start (Some Sim.no_task_text) Hang (Ok tt)))
  = Ok (Some {| ps_tasks := 1;
                worker_replicas := 2;
                worker_job_name := "master/task:0";
                task := JInt 0;
                is_chief := true;
                master := "grpc://localhost:2222" |}).
Proof.
  edestruct (default_task_is_master
               (R := Sim.runtime (Some Sim.no_task_text) Hang (Ok tt))
               (Sim.start (Some Sim.no_task_text) Hang (Ok tt)))
    as [_ Hrole].
  - reflexivity.
  - intros v Hv. discriminate Hv.
  - reflexivity.
  - exact (f_equal fst
             (Hrole 2 1 _ _
                (snd (read_descriptor
                        (Sim.start (Some Sim.no_task_text) Hang (Ok tt))))
                eq_refl eq_refl ltac:(lia) ltac:(lia) eq_refl eq_refl)).
Defined.

(** * Further properties of [main] *)

(** ** Invariants of the role *)

Section RoleInvariants.

Context {R : Runtime}.

Lemma py_len_nonneg v n : py_len v = Ok n -> 0 <= n.
Proof.
  destruct v; simpl; try discriminate; intros [= <-]; unfold dict_len; lia.
Qed.

Lemma count_tasks_bound v key extra otherwise n :
  count_tasks v key extra otherwise = Ok n ->
  extra <= n \/ n = otherwise.
Proof.
  unfold count_tasks. destruct (truthy v); [| intros [= <-]; by right].
  destruct (py_in key v) as [[] | | | ]; try discriminate.
  - destruct (py_getitem v key) as [tasks | | | ]; try discriminate.
    destruct (py_len tasks) as [m | | | ] eqn:Hlen; try discriminate.
    intros [= <-]. apply py_len_nonneg in Hlen. left. lia.
  - intros [= <-]. by right.
Qed.

Lemma count_workers_positive v n : count_workers v = Ok n -> 1 <= n.
Proof. intros H. apply count_tasks_bound in H. lia. Qed.


(** What a role yielded by lines 190-202 is made of. *)
Lemma start_server_role (d : Descriptor) wr ps (st : State R) role st' :
  start_server d wr ps st = (Ok (Some role), st') ->
  exists spec srv type index,
    ClusterSpec R (inr (cluster d)) = Ok spec
    /\ getattr (task_info d) "type" = Ok type
    /\ getattr (task_info d) "index" = Ok index
    /\ Server R spec type index = Ok srv
    /\ eq_str type "ps" = false
    /\ format_job_name (R := R) type index = Ok (worker_job_name role)
    /\ role = {| ps_tasks := ps;
                 worker_replicas := wr;
                 worker_job_name := worker_job_name role;
                 task := index;
                 is_chief := eq_str type "master";
                 master := server_target R srv |}
    /\ fs st' = fs st
    /\ trace st' = (trace st ++ [EvClusterSpec; EvServer type index])%list.
Proof.
  unfold start_server, bind, lift, emit, ret. simpl.
  destruct (ClusterSpec R _) as [spec | | | ] eqn:Hspec; try discriminate.
  destruct (getattr (task_info d) "type") as [type | | | ] eqn:Hty;
    try discriminate.
  destruct (getattr (task_info d) "index") as [index | | | ] eqn:Hidx;
    try discriminate.
  simpl.
  destruct (Server R spec type index) as [srv | | | ] eqn:Hsrv;
    try discriminate.
  destruct (eq_str type "ps") eqn:Hps.
  { simpl. destruct (server_join R srv); discriminate. }
  destruct (format_job_name (R := R) type index) as [name | | | ] eqn:Hname;
    try discriminate.
  intros [= <- <-]. simpl. rewrite <- !app_assoc.
  exists spec, srv, type, index. by repeat split.
Qed.


End RoleInvariants.


(** ** The descriptor and the role *)

Section DescriptorShapes.

Context {R : Runtime}.

Lemma derive_role_counts (d : Descriptor) (st : State R) role st' :
  derive_role d st = (Ok (Some role), st') ->
  count_workers (cluster_data d) = Ok (worker_replicas role)
  /\ count_ps (cluster_data d) = Ok (ps_tasks role).
Proof.
  unfold derive_role, bind, lift.
  destruct (count_workers (cluster_data d)) as [wr | | | ]; try discriminate.
  destruct (count_ps (cluster_data d)) as [ps | | | ]; try discriminate.
  destruct ((wr >? 1) && (ps <? 1)); [discriminate |].
  destruct ((wr >=? 1) && (ps >? 0)).
  - intros Hs.
    by destruct (start_server_role _ _ _ _ _ _ Hs)
      as (spec & srv & type & index & _ & _ & _ & _ & _ & _ & -> & _ & _).
  - by intros [= <- <-].
Qed.

(** X2: when the cluster of [TF_CONFIG] has a [ps] list of length m, the
    descriptor that lines 167-171 read has that cluster, the count of line
    185 is m, it is the [ps_tasks] of every role that role resolution
    yields, and it is what every call of the trainer made by [main]
    receives. *)
Theorem ps_tasks_counts_ps e c ps :
  json_loads R (default "{}" (os_environ_TF_CONFIG R)) = Ok (JObj e) ->
  dict_get "cluster" e = Some (JObj c) ->
  dict_get "ps" c = Some (JArr ps) ->
  let m := Z.of_nat (length ps) in
  count_ps (JObj c) = Ok m
  /\ (forall (st : State R) d st',
        read_descriptor st = (Ok d, st') -> cluster_data d = JObj c)
  /\ (forall (st : State R) role st',
        resolve_role st = (Ok (Some role), st') -> ps_tasks role = m)
  /\ (forall FLAGS (st : State R) res st',
        main FLAGS st = (res, st') ->
        exists evs,
          trace st' = (trace st ++ evs)%list
          /\ Forall (trains_with (fun args => arg_ps_tasks args = m)) evs).
Proof.
  intros Hloads Hcluster Hp m.
  assert (count_ps (JObj c) = Ok m) as Hcount by (by apply count_ps_list).
  assert (forall (st : State R) d st',
             read_descriptor st = (Ok d, st') -> cluster_data d = JObj c)
    as Hread.
  { intros st d st' Hd.
    rewrite (read_descriptor_cluster _ _ _ _ Hloads Hd). by rewrite Hcluster. }
  assert (forall (st : State R) role st',
             resolve_role st = (Ok (Some role), st') -> ps_tasks role = m)
    as Hrole.
  { intros st role st' Hr.
    destruct (resolve_role_descriptor _ _ _ Hr) as (d & st1 & Hd & Hdr).
    apply derive_role_counts in Hdr as [_ Hdr].
    rewrite (Hread _ _ _ Hd) in Hdr. congruence. }
  repeat split; try done.
  intros FLAGS st res st' Hmain.
  destruct (main_trains _ _ _ _ Hmain) as (evs & Ht & Hevs).
  exists evs. split; [exact Ht |].
  eapply Forall_impl; [exact Hevs |].
  intros ev Hev args Eargs.
  destruct (Hev args Eargs) as (b & st1 & role & st2 & hook & _ & Hr & ->).
  simpl. eauto.
Qed.

(** X3: in distributed mode, a task of a type other than ["ps"] with an
    integer index gets, once the server is started, the job name
    [type/task:index], its index as task, the server's target as master
    address, and is chief exactly when its type is ["master"]. *)
Theorem distributed_worker_role (d : Descriptor) (st : State R)
    wr ps type index spec srv :
  count_workers (cluster_data d) = Ok wr ->
  count_ps (cluster_data d) = Ok ps ->
  0 < ps ->
  getattr (task_info d) "type" = Ok (JStr type) ->
  type <> "ps" ->
  getattr (task_info d) "index" = Ok (JInt index) ->
  ClusterSpec R (inr (cluster d)) = Ok spec ->
  Server R spec (JStr type) (JInt index) = Ok srv ->
  derive_role d st =
    (Ok (Some {| ps_tasks := ps;
                 worker_replicas := wr;
                 worker_job_name := type +:+ "/task:" +:+ str_of_Z index;
                 task := JInt index;
                 is_chief := String.eqb type "master";
                 master := server_target R srv |}),
     {| fs := fs st;
        trace := trace st
                 ++ [EvClusterSpec; EvServer (JStr type) (JInt index)] |}).
Proof.
  intros Hwr Hps Hp0 Hty Hne Hidx Hspec Hsrv.
  pose proof (count_workers_positive _ _ Hwr) as Hw1.
  unfold derive_role, bind, lift. rewrite Hwr, Hps.
  assert ((ps <? 1) = false) as -> by lia.
  assert ((wr >=? 1) = true) as -> by lia.
  assert ((ps >? 0) = true) as -> by lia.
  rewrite andb_false_r. simpl.
  unfold start_server, bind, lift, emit, ret.
  rewrite Hspec, Hty, Hidx. simpl. rewrite Hsrv. simpl.
  destruct (String.eqb_spec type "ps") as [-> | _]; [done |].
  by rewrite <- !app_assoc.
Qed.

(** X4: every role with a parameter server was made by lines 190-202: the
    server was started for a task whose type is not ["ps"], the job name is
    the formatted type and index, the task is the index, the master address
    is the server's target, and the role is chief exactly when the type is
    ["master"]. *)
Theorem role_with_ps_shape (d : Descriptor) (st : State R) role st' :
  derive_role d st = (Ok (Some role), st') ->
  0 < ps_tasks role ->
  exists spec srv type index,
    ClusterSpec R (inr (cluster d)) = Ok spec
    /\ getattr (task_info d) "type" = Ok type
    /\ getattr (task_info d) "index" = Ok index
    /\ Server R spec type index = Ok srv
    /\ eq_str type "ps" = false
    /\ format_job_name (R := R) type index = Ok (worker_job_name role)
    /\ task role = index
    /\ is_chief role = eq_str type "master"
    /\ master role = server_target R srv
    /\ trace st' = (trace st ++ [EvClusterSpec; EvServer type index])%list.
Proof.
  unfold derive_role, bind, lift.
  destruct (count_workers (cluster_data d)) as [wr | | | ] eqn:Hwr;
    try discriminate.
  apply count_workers_positive in Hwr.
  destruct (count_ps (cluster_data d)) as [ps | | | ]; try discriminate.
  destruct ((wr >? 1) && (ps <? 1)); [discriminate |].
  destruct ((wr >=? 1) && (ps >? 0)) eqn:Hdist.
  - intros Hs _.
    destruct (start_server_role _ _ _ _ _ _ Hs)
      as (spec & srv & type & index & H1 & H2 & H3 & H4 & H5 & H6 & Hrole
          & _ & H8).
    exists spec, srv, type, index. rewrite Hrole at 2 3 4. simpl.
    by repeat split.
  - intros [= <- <-]. simpl. intros Hp0.
    apply andb_false_iff in Hdist as [Hd | Hd]; lia.
Qed.

Lemma no_cluster_lonely (d : Descriptor) (st : State R) :
  truthy (cluster_data d) = false ->
  derive_role d st = (Ok (Some lonely_worker), st).
Proof.
  intros Hfalsy.
  unfold derive_role, bind, lift, count_workers, count_ps, count_tasks.
  by rewrite Hfalsy.
Qed.

(** X5: when [TF_CONFIG] gives no cluster (the entry absent or empty) and
    a task entry that is absent, empty or a plain object, the type and the
    index of the task are not used: whatever they are, a task of type
    ["ps"] included, role resolution yields the single worker of lines
    174-179 without any call, no server is started, and [main] goes on to
    the trainer with it. *)
Theorem no_cluster_ignores_task (st : State R) e :
  json_loads R (default "{}" (os_environ_TF_CONFIG R)) = Ok (JObj e) ->
  truthy (default JNull (dict_get "cluster" e)) = false ->
  (forall entry,
      dict_get "task" e = Some entry ->
      truthy entry = true ->
      exists attrs,
        entry = JObj attrs
        /\ existsb (String.prefix "__") (map fst attrs) = false) ->
  resolve_role st = (Ok (Some lonely_worker), st)
  /\ (forall d : Descriptor,
        truthy (cluster_data d) = false ->
        derive_role d st = (Ok (Some lonely_worker), st))
  /\ forall FLAGS (st0 : State R) b,
       prepare FLAGS st0 = (Ok b, st) ->
       main FLAGS st0 = delegate FLAGS b lonely_worker st.
Proof.
  intros Hloads Hcluster Htask.
  assert (resolve_role st = (Ok (Some lonely_worker), st)) as Hrole.
  { unfold resolve_role, read_descriptor.
    unfold bind at 1 2, lift at 1. rewrite Hloads.
    unfold bind at 1, lift at 1. simpl. unfold bind at 1. rewrite Hcluster.
    unfold ret at 1. unfold bind at 1, lift at 1.
    assert (exists attrs,
               TaskSpec
                 (if truthy (default JNull (dict_get "task" e))
                  then default JNull (dict_get "task" e)
                  else JObj [("type", JStr "master"); ("index", JInt 0)])
               = Ok attrs) as (attrs & Hattrs).
    { destruct (dict_get "task" e) as [entry | ] eqn:He; simpl; [| eauto].
      destruct (truthy entry) eqn:Ht; [| eauto].
      destruct (Htask entry eq_refl Ht) as (attrs & -> & Hplain).
      exists attrs. simpl. by rewrite Hplain. }
    unfold bind at 1, lift at 1. rewrite Hattrs. unfold ret.
    by apply no_cluster_lonely. }
  split; [exact Hrole |]. split; [intros d; apply no_cluster_lonely |].
  intros FLAGS st0 b Hp. unfold main, bind. by rewrite Hp, Hrole.
Qed.

(** X6: a [TF_CONFIG] that is not a JSON object makes role resolution
    raise [AttributeError] (it has no [get]); one whose [task] entry is
    neither empty nor an object makes it raise [TypeError] when no cluster
    is given.  In both cases nothing is called, and [main] ends with the
    exception after lines 121-154 have run. *)
Theorem malformed_descriptor_fails (st : State R) env :
  json_loads R (default "{}" (os_environ_TF_CONFIG R)) = Ok env ->
  (is_dict env = false ->
   resolve_role st = (Raise AttributeError, st)
   /\ forall FLAGS st0 b,
        prepare FLAGS st0 = (Ok b, st) ->
        main FLAGS st0 = (Raise AttributeError, st))
  /\ (forall e entry,
        env = JObj e ->
        truthy (default JNull (dict_get "cluster" e)) = false ->
        dict_get "task" e = Some entry ->
        truthy entry = true ->
        is_dict entry = false ->
        resolve_role st = (Raise TypeError, st)
        /\ forall FLAGS st0 b,
             prepare FLAGS st0 = (Ok b, st) ->
             main FLAGS st0 = (Raise TypeError, st)).
Proof.
  intros Hloads.
  assert (forall err, resolve_role st = (Raise err, st) ->
            forall FLAGS st0 b,
              prepare FLAGS st0 = (Ok b, st) ->
              main FLAGS st0 = (Raise err, st)) as Hmain.
  { intros err Hr FLAGS st0 b Hp. unfold main, bind. by rewrite Hp, Hr. }
  split.
  - intros Hnd.
    assert (resolve_role st = (Raise AttributeError, st)) as Hr.
    { unfold resolve_role, read_descriptor, bind, lift. rewrite Hloads.
      by destruct env. }
    split; [exact Hr | by apply Hmain].
  - intros e entry -> Hcluster Htask Htruthy Hnd.
    assert (resolve_role st = (Raise TypeError, st)) as Hr.
    { unfold resolve_role, read_descriptor, bind, lift. rewrite Hloads.
      simpl. rewrite Hcluster. unfold ret. rewrite Htask. simpl.
      rewrite Htruthy. by destruct entry. }
    split; [exact Hr | by apply Hmain].
Qed.

End DescriptorShapes.

Lemma ps_tasks_counts_ps_witness :
  exists role st',
    resolve_role (Sim.start (Some Sim.worker_text) Hang (Ok tt))
    = (Ok (Some role), st')
    /\ ps_tasks role = 1
    /\ Forall (trains_with (fun args => arg_ps_tasks args = 1))
         (trace (snd (main Sim.pipeline_flags
                        (Sim.start (Some Sim.worker_text) Hang (Ok tt)))))
    /\ exists args,
         In (EvTrain args)
           (trace (snd (main Sim.pipeline_flags
                          (Sim.start (Some Sim.worker_text) Hang (Ok tt))))).
Proof.
  destruct (ps_tasks_counts_ps
              (R := Sim.runtime (Some Sim.worker_text) Hang (Ok tt))
              _ _ [JStr "p0:2222"] eq_refl eq_refl eq_refl)
    as (_ & _ & Hrole & Hmain).
  eexists _, _. split; [reflexivity |]. split; [| split].
  - exact (Hrole (Sim.start (Some Sim.worker_text) Hang (Ok tt)) _ _ eq_refl).
  - destruct (Hmain Sim.pipeline_flags
                (Sim.start (Some Sim.worker_text) Hang (Ok tt)) _ _
                (surjective_pairing _))
      as (evs & Ht & Hevs).
    rewrite Ht. exact Hevs.
  - eexists. simpl. do 7 right. left. reflexivity.
Defined.

Lemma distributed_worker_role_witness :
  fst (derive_role
         (example_descriptor None Hang (Ok tt)
            [("type", JStr "worker"); ("index", JInt 3)])
         (Sim.start None Hang (Ok tt)))
  = Ok (Some {| ps_tasks := 1;
                worker_replicas := 2;
                worker_job_name := "worker/task:3";
                task := JInt 3;
                is_chief := false;
                master := "grpc://localhost:2222" |}).
Proof.
  erewrite (distributed_worker_role (R := Sim.runtime None Hang (Ok tt))
              _ _ 2 1 "worker" 3);
    [reflexivity | reflexivity | reflexivity | lia | reflexivity
    | discriminate | reflexivity | reflexivity | reflexivity ].
Defined.

Lemma role_with_ps_shape_witness :
  exists type index,
    getattr [("type", JStr "worker"); ("index", JInt 3)] "type" = Ok type
    /\ getattr [("type", JStr "worker"); ("index", JInt 3)] "index" = Ok index
    /\ eq_str type "ps" = false.
Proof.
  destruct (role_with_ps_shape (R := Sim.runtime None Hang (Ok tt))
              (example_descriptor None Hang (Ok tt)
                 [("type", JStr "worker"); ("index", JInt 3)])
              (Sim.start None Hang (Ok tt)) _ _ eq_refl)
    as (spec & srv & type & index & _ & Hty & Hidx & _ & Hps & _).
  - simpl. lia.
  - exists type, index. by repeat split.
Defined.

Lemma no_cluster_ignores_task_witness :
  resolve_role
    (parsed_start
       (JObj [("task", JObj [("type", JStr "ps"); ("index", JInt 0)])])
       Hang (Ok tt))
  = (Ok (Some lonely_worker),
     parsed_start
       (JObj [("task", JObj [("type", JStr "ps"); ("index", JInt 0)])])
       Hang (Ok tt)).
Proof.
  edestruct (no_cluster_ignores_task
               (R := parsed_runtime
                       (JObj [("task",
                               JObj [("type", JStr "ps"); ("index", JInt 0)])])
                       Hang (Ok tt))
               (parsed_start
                  (JObj [("task",
                          JObj [("type", JStr "ps"); ("index", JInt 0)])])
                  Hang (Ok tt))
               [("task", JObj [("type", JStr "ps"); ("index", JInt 0)])])
    as [Hrole _].
  - reflexivity.
  - reflexivity.
  - intros entry [= <-] _. eexists. split; reflexivity.
  - exact Hrole.
Defined.

Lemma malformed_descriptor_fails_witness :
  resolve_role (parsed_start (JArr [JInt 1]) Hang (Ok tt))
  = (Raise AttributeError, parsed_start (JArr [JInt 1]) Hang (Ok tt))
  /\ resolve_role (parsed_start (JObj [("task", JStr "ps")]) Hang (Ok tt))
     = (Raise TypeError, parsed_start (JObj [("task", JStr "ps")]) Hang (Ok tt)).
Proof.
  split.
  - destruct (malformed_descriptor_fails
                (R := parsed_runtime (JArr [JInt 1]) Hang (Ok tt))
                (parsed_start (JArr [JInt 1]) Hang (Ok tt)) _ eq_refl)
      as [Hlist _].
    by destruct (Hlist eq_refl).
  - destruct (malformed_descriptor_fails
                (R := parsed_runtime (JObj [("task", JStr "ps")]) Hang (Ok tt))
                (parsed_start (JObj [("task", JStr "ps")]) Hang (Ok tt))
                _ eq_refl)
      as [_ Htask].
    by destruct (Htask _ _ eq_refl eq_refl eq_refl eq_refl eq_refl).
Defined.

(** ** Before the bundle is there *)

Section Preparation.

Context {R : Runtime}.
Variable FLAGS : Flags.

Lemma prepare_with_train_dir (st : State R) :
  FLAGS_train_dir FLAGS <> "" ->
  prepare FLAGS st
  = bind (reset_train FLAGS)
      (fun _ => bind (load_configs FLAGS) (select_configs FLAGS)) st.
Proof.
  intros Hdir. unfold prepare. unfold bind at 1.
  by destruct (String.eqb_spec (FLAGS_train_dir FLAGS) "").
Qed.

Lemma main_after_reset (st st1 : State R) :
  FLAGS_train_dir FLAGS <> "" ->
  reset_train FLAGS st = (Ok tt, st1) ->
  main FLAGS st
  = bind (bind (load_configs FLAGS) (select_configs FLAGS))
      (after_prepare FLAGS) st1.
Proof.
  intros Hdir Hreset. unfold main.
  change (bind (prepare FLAGS) (after_prepare FLAGS) st
          = bind (bind (load_configs FLAGS) (select_configs FLAGS))
              (after_prepare FLAGS) st1).
  unfold bind at 1. rewrite (prepare_with_train_dir _ Hdir).
  unfold bind at 1. rewrite Hreset. reflexivity.
Qed.

(** X7: without a [train_dir], [main] raises the [AssertionError] of line
    121 and makes no call at all: nothing is deleted, created, loaded or
    trained. *)
Theorem missing_train_dir_asserts (st : State R) :
  FLAGS_train_dir FLAGS = "" ->
  main FLAGS st = (Raise (AssertionError "`train_dir` is missing."), st).
Proof.
  intros Hd. unfold main, prepare, bind, raise, lift. by rewrite Hd.
Qed.

(** X8: when the loader of the chosen mode raises, [main] ends with its
    exception: by then the reset of lines 123-125 has been done and the
    training directory has been created (for task 0), but no config file
    has been copied and neither the server nor the trainer is called. *)
Theorem failed_load_copies_nothing (st st1 : State R) disk e :
  FLAGS_train_dir FLAGS <> "" ->
  reset_train FLAGS st = (Ok tt, st1) ->
  (FLAGS_task FLAGS = 0 ->
   gfile_MakeDirs R (FLAGS_train_dir FLAGS) (fs st1) = (Ok tt, disk)) ->
  (FLAGS_task FLAGS <> 0 -> disk = fs st1) ->
  chosen_loader FLAGS disk = Raise e ->
  main FLAGS st =
    (Raise e, {| fs := disk; trace := trace st1 ++ before_load FLAGS |}).
Proof.
  intros Hdir Hreset Hmk Hother Hload.
  rewrite (main_after_reset _ _ Hdir Hreset). revert Hload.
  unfold load_configs, chosen_loader, before_load, when, gfile_copy.
  unfold bind, emit, on_fs, read_fs, ret. simpl.
  destruct (Z.eqb_spec (FLAGS_task FLAGS) 0) as [H0 | Hne].
  - rewrite (Hmk H0). simpl.
    destruct (negb _); simpl; intros ->; by rewrite <- !app_assoc.
  - rewrite (Hother Hne).
    destruct (negb _); simpl; by intros ->.
Qed.


(** X10: lines 147-154 change nothing in the bundle but the entry
    ['train_config']; the model and input messages are the loaded ones;
    with a positive [n_steps] the loaded training message has the field, the
    value is one the field accepts, and the message [main] goes on with
    differs from it in [num_steps] only; otherwise it is the loaded
    message. *)
Theorem override_touches_num_steps_only loaded (st : State R) b st' :
  select_configs FLAGS loaded st = (Ok b, st') ->
  (forall key, key <> "train_config" -> configs b !! key = loaded !! key)
  /\ loaded !! "model" = Some (model_config b)
  /\ loaded !! "train_input_config" = Some (input_config b)
  /\ exists msg,
       loaded !! "train_config" = Some msg
       /\ (FLAGS_n_steps FLAGS <= 0 -> train_config b = msg)
       /\ (0 < FLAGS_n_steps FLAGS ->
           num_steps_accepts R (FLAGS_n_steps FLAGS) = true
           /\ exists t,
                msg = TrainMsg t
                /\ train_config b
                   = TrainMsg {| num_steps := FLAGS_n_steps FLAGS;
                                 train_fields := train_fields t |}).
Proof.
  unfold select_configs, configs_getitem, bind, raise, lift, ret, print, emit.
  destruct (loaded !! "model") as [m | ] eqn:Hm; [| discriminate].
  destruct (loaded !! "train_config") as [msg | ] eqn:Ht; [| discriminate].
  destruct (FLAGS_n_steps FLAGS >? 0) eqn:Hn.
  - destruct msg as [t | kind body]; [| discriminate]. simpl.
    destruct (num_steps_accepts R _) eqn:Hacc; [| discriminate].
    destruct (<["train_config" := _]> loaded !! "train_input_config")
      as [i | ] eqn:Hi; [| discriminate].
    rewrite lookup_insert_ne in Hi by done.
    intros [= <- <-]. simpl. repeat split; try done.
    + intros key Hkey. by rewrite lookup_insert_ne.
    + exists (TrainMsg t). repeat split; try done; [lia |]. eauto.
  - destruct (loaded !! "train_input_config") as [i | ] eqn:Hi;
      [| discriminate].
    intros [= <- <-]. simpl. repeat split; try done.
    exists msg. repeat split; try done; lia.
Qed.

End Preparation.

Lemma missing_train_dir_asserts_witness :
  fst (main default_flags (Sim.start None Hang (Ok tt)))
  = Raise (AssertionError "`train_dir` is missing.").
Proof.
  by rewrite (missing_train_dir_asserts
                (R := Sim.runtime None Hang (Ok tt)) default_flags _ eq_refl).
Defined.

Lemma failed_load_copies_nothing_witness :
  main missing_pipeline_flags (Sim.start None Hang (Ok tt))
  = (Raise Sim.NotFoundError,
     Build_State (R := Sim.runtime None Hang (Ok tt)) Sim.disk
       [EvMakeDirs "/train"; EvPipelineFile "/cfg/missing.config"]).
Proof.
  apply (failed_load_copies_nothing (R := Sim.runtime None Hang (Ok tt))
           missing_pipeline_flags (Sim.start None Hang (Ok tt))
           (Sim.start None Hang (Ok tt)) Sim.disk Sim.NotFoundError).
  - discriminate.
  - reflexivity.
  - reflexivity.
  - intros Hne. by destruct Hne.
  - reflexivity.
Defined.


Lemma override_touches_num_steps_only_witness :
  configs overridden_example !! "model" = loaded_example !! "model"
  /\ loaded_example !! "train_input_config"
     = Some (input_config overridden_example).
Proof.
  destruct (override_touches_num_steps_only
              (R := Sim.runtime None Hang (Ok tt)) (steps_flags 500)
              loaded_example (Sim.start None Hang (Ok tt))
              overridden_example
              (Build_State (R := Sim.runtime None Hang (Ok tt)) Sim.disk
                 [EvPrint "Training for 500 steps"])
              eq_refl)
    as (Hframe & _ & Hinput & _).
  split; [apply Hframe; discriminate | exact Hinput].
Defined.

(** ** What [main] calls, and in which order *)

Section Calls.

Context {R : Runtime}.
Variable FLAGS : Flags.

Lemma after_prepare_after_bundle b :
  emits after_bundle (after_prepare (R := R) FLAGS b).
Proof.
  unfold after_prepare. apply emits_bind.
  - unfold resolve_role, read_descriptor, derive_role, start_server, raise.
    emits_walk; exact I.
  - intros [r | ]; [| apply emits_ret].
    unfold delegate, build_graph_hook, call_trainer, print.
    emits_walk; exact I.
Qed.

Lemma main_emits P :
  (forall ev, after_bundle ev -> P ev) ->
  emits P (prepare (R := R) FLAGS) ->
  emits P (main (R := R) FLAGS).
Proof.
  intros HP Hprep. unfold main. apply emits_bind; [exact Hprep |].
  intros b. eapply emits_weaken; [exact HP |].
  apply after_prepare_after_bundle.
Qed.

(** X11: the flags [--master], [--worker_replicas] and [--ps_tasks] are
    never read: whatever their values, [main] does the same, with the same
    result, file system and calls. *)
Theorem role_flags_unused (st : State R) master worker_replicas ps_tasks :
  main (with_role_flags FLAGS master worker_replicas ps_tasks) st
  = main FLAGS st.
Proof. reflexivity. Qed.

(** X12: every call of the trainer made by [main] receives the tuning
    flags as they are: the number of clones, the CPU switch, the training
    directory, the memory-growth switch, the number of CPU threads, the
    number of checkpoints to keep, the save interval and the
    mixed-precision switch. *)
Theorem tuning_flags_passed_on (st : State R) res st' :
  main FLAGS st = (res, st') ->
  exists evs,
    trace st' = (trace st ++ evs)%list
    /\ Forall (trains_with (passes_flags FLAGS)) evs.
Proof.
  intros Hmain.
  destruct (main_trains _ _ _ _ Hmain) as (evs & Ht & Hevs).
  exists evs. split; [exact Ht |].
  eapply Forall_impl; [exact Hevs |].
  intros ev Hev args Eargs.
  destruct (Hev args Eargs) as (b & st1 & role & st2 & hook & _ & _ & ->).
  by repeat split.
Qed.

(** X13: when [pipeline_config_path] is empty, the bundle is read by the
    loader of the three separate files, called with the three paths of the
    flags; the pipeline loader is never called, and the only copies are
    those of the three files to [model.config], [train.config] and
    [input.config] in the training directory. *)
Theorem separate_paths_mode (st : State R) res st' :
  FLAGS_pipeline_config_path FLAGS = "" ->
  main FLAGS st = (res, st') ->
  exists evs,
    trace st' = (trace st ++ evs)%list
    /\ Forall (from_separate_only FLAGS) evs.
Proof.
  intros Hempty. apply main_emits.
  { by intros []. }
  unfold prepare, reset_train, load_configs. rewrite Hempty. simpl.
  unfold select_configs, gfile_copy, raise, print.
  emits_walk; simpl; auto.
Qed.

Lemma prefix_append (a b : string) : String.prefix a (a +:+ b) = true.
Proof.
  induction a as [| c a IH]; simpl; [by destruct b |].
  by destruct (ascii_dec c c).
Qed.

Lemma joined_below dir name :
  String.prefix "/" name = false ->
  String.prefix dir (os_path_join dir name) = true.
Proof.
  intros Hrel. unfold os_path_join. rewrite Hrel.
  destruct (_ || _); apply prefix_append.
Qed.

(** X14: [main] never copies a file to a place outside the training
    directory: the destination of every copy it makes starts with
    [train_dir]. *)
Theorem copies_stay_in_train_dir (st : State R) res st' :
  main FLAGS st = (res, st') ->
  exists evs,
    trace st' = (trace st ++ evs)%list
    /\ Forall (copies_into (FLAGS_train_dir FLAGS)) evs.
Proof.
  apply main_emits.
  { intros ev Hev s d Heq. subst ev. by destruct Hev. }
  unfold prepare, reset_train, load_configs.
  unfold select_configs, gfile_copy, raise, print.
  emits_walk; intros s d Heq; try discriminate Heq;
    injection Heq as <- <-; by apply joined_below.
Qed.

Lemma rest_not_rmtree :
  emits not_rmtree
    (bind (load_configs (R := R) FLAGS) (select_configs FLAGS)).
Proof.
  unfold load_configs, select_configs, gfile_copy, raise, print.
  emits_walk; exact I.
Qed.

(** X15: the only directory [main] ever removes is [train_dir], and it
    removes nothing at all when [reset_train] is 0 or the directory does not
    exist when it starts. *)
Theorem removes_only_train_dir (st : State R) res st' :
  main FLAGS st = (res, st') ->
  exists evs,
    trace st' = (trace st ++ evs)%list
    /\ Forall (fun ev => forall path,
                  ev = EvRmtree path -> path = FLAGS_train_dir FLAGS) evs
    /\ (FLAGS_reset_train FLAGS = 0
        \/ os_path_isdir R (FLAGS_train_dir FLAGS) (fs st) = false ->
        Forall not_rmtree evs).
Proof.
  intros Hmain.
  assert (emits (fun ev => forall path,
                   ev = EvRmtree path -> path = FLAGS_train_dir FLAGS)
            (main (R := R) FLAGS)) as Honly.
  { apply main_emits.
    { intros ev Hev path Heq. subst ev. by destruct Hev. }
    unfold prepare, reset_train, load_configs.
    unfold select_configs, gfile_copy, raise, print.
    emits_walk; intros path Heq; try discriminate Heq; by injection Heq. }
  destruct (Honly _ _ _ Hmain) as (evs & Ht & Hevs).
  exists evs. split; [exact Ht |]. split; [exact Hevs |].
  intros Hinactive.
  assert (exists evs', trace st' = (trace st ++ evs')%list
                       /\ Forall not_rmtree evs') as (evs' & Ht' & Hevs').
  { destruct (String.eqb_spec (FLAGS_train_dir FLAGS) "") as [Hd | Hd].
    - revert Hmain. unfold main, prepare, bind, raise, lift. rewrite Hd.
      simpl. intros [= <- <-]. exists []. by rewrite app_nil_r.
    - rewrite (main_after_reset FLAGS st st Hd
                 (reset_train_inactive FLAGS st Hinactive)) in Hmain.
      revert Hmain. apply emits_bind; [apply rest_not_rmtree |].
      intros b. eapply emits_weaken; [| apply after_prepare_after_bundle].
      by intros []. }
  rewrite Ht in Ht'. apply app_inv_head in Ht'. by subst evs'.
Qed.

End Calls.

(** ** The end of a run *)

Section RunEnd.

Context {R : Runtime}.
Variable FLAGS : Flags.

Lemma ends_training_quiet (m : M R unit) :
  emits not_train m -> ends_training m.
Proof.
  intros Hm st res st' E. destruct (Hm _ _ _ E) as (evs & Ht & Hp).
  exists evs, []. rewrite app_nil_r. repeat split; try done. by left.
Qed.

Lemma ends_training_bind {A} (m : M R A) (k : A -> M R unit) :
  emits not_train m ->
  (forall a, ends_training (k a)) ->
  ends_training (bind m k).
Proof.
  intros Hm Hk st res st'. unfold bind.
  destruct (m st) as [[a | e | | ] st1] eqn:Em;
    destruct (Hm _ _ _ Em) as (evs1 & Ht1 & Hp1);
    try (intros [= <- <-]; exists evs1, []; rewrite app_nil_r;
         repeat split; try done; by left).
  intros Ek. destruct (Hk a _ _ _ Ek) as (before & after & Ht2 & Hb & Ha).
  exists (evs1 ++ before)%list, after. repeat split; try done.
  - rewrite Ht2, Ht1. by rewrite <- !app_assoc.
  - by apply Forall_app.
Qed.

Lemma guarded_training_ends (args : TrainArgs) :
  ends_training
    (try_except (call_trainer (R := R) args) "RuntimeError"
       (fun e => print ("Ignoring annoying RuntimeError: " +:+ exn_str e))).
Proof.
  intros st res st'.
  unfold try_except, call_trainer, print, bind, emit, on_fs. simpl.
  destruct (trainer_train R args (fs st)) as [outcome disk] eqn:Htrain.
  destruct outcome as [[] | e | | ]; simpl.
  2: destruct (isinstance e "RuntimeError") eqn:Hcls.
  all: intros [= <- <-]; simpl; exists []; simpl.
  2: { exists [EvTrain args;
               EvPrint ("Ignoring annoying RuntimeError: " +:+ exn_str e)].
       rewrite <- app_assoc. repeat split; try done.
       right. exists args, (fs st), (Raise e). split; [exact Htrain |].
       left. by exists e. }
  all: exists [EvTrain args]; repeat split; try done;
    right; eexists args, (fs st), _; (split; [exact Htrain |]);
    right; repeat split; try done.
  intros e' [= <-]. exact Hcls.
Qed.

Lemma delegate_ends b r : ends_training (delegate (R := R) FLAGS b r).
Proof.
  unfold delegate. apply ends_training_bind.
  { unfold build_graph_hook. emits_walk; reflexivity. }
  intros hook. apply ends_training_bind.
  { unfold print. emits_walk; reflexivity. }
  intros _. apply guarded_training_ends.
Qed.

(** X16: [main] calls the trainer at most once, and makes no call after
    it: what a run adds to the trace is a sequence of calls without the
    trainer, then nothing more or the call of the trainer.  The print of
    line 237 follows that call exactly when the trainer raised a
    [RuntimeError], and [main] then returns normally; otherwise nothing
    follows it and the result of [main] is the outcome of the trainer. *)
Theorem trainer_called_last (st : State R) res st' :
  main FLAGS st = (res, st') ->
  exists before after,
    trace st' = (trace st ++ before ++ after)%list
    /\ Forall not_train before
    /\ training_end res (fs st') after.
Proof.
  revert st res st'. change (ends_training (main (R := R) FLAGS)).
  unfold main. apply ends_training_bind; [apply prepare_quiet |].
  intros b. apply ends_training_bind; [apply resolve_role_quiet |].
  intros [r | ]; [apply delegate_ends |].
  apply ends_training_quiet, emits_ret.
Qed.

Lemma emits_bind_returns {A B} P (Q : A -> Prop) (m : M R A)
    (k : A -> M R B) :
  emits P m -> returns Q m -> (forall a, Q a -> emits P (k a)) ->
  emits P (bind m k).
Proof.
  intros Hm Hq Hk st r st'. unfold bind.
  destruct (m st) as [[a | e | | ] st1] eqn:Em;
    destruct (Hm _ _ _ Em) as (evs1 & Ht1 & Hp1);
    try (intros [= <- <-]; eauto).
  intros Ek. destruct (Hk a (Hq _ _ _ Em) _ _ _ Ek) as (evs2 & Ht2 & Hp2).
  exists (evs1 ++ evs2)%list. split.
  - rewrite Ht2, Ht1. by rewrite <- app_assoc.
  - by apply Forall_app.
Qed.

Lemma build_graph_hook_returns (b : Bundle) :
  returns (fun hook => hook = configs b !! "graph_rewriter_config")
    (build_graph_hook (R := R) b).
Proof.
  intros st hook st'. unfold build_graph_hook.
  destruct (configs b !! "graph_rewriter_config") as [cfg | ].
  - unfold bind, emit, lift, ret. simpl.
    destruct (graph_rewriter_builder_build R cfg); try discriminate.
    by intros [= <- _].
  - by intros [= <- _].
Qed.

(** X17: the graph hook the trainer receives is the one built from the
    entry ['graph_rewriter_config'] of the bundle, and is [None] when the
    bundle has no such entry, in which case no hook is built; an exception
    raised while the hook is built ends the run before the trainer is
    called, a [RuntimeError] included. *)
Theorem graph_hook_from_bundle (b : Bundle) (r : Role) :
  emits (trains_with
           (fun args =>
              arg_graph_hook_fn args = configs b !! "graph_rewriter_config"))
    (delegate (R := R) FLAGS b r)
  /\ (configs b !! "graph_rewriter_config" = None ->
      emits no_graph_rewriter (delegate (R := R) FLAGS b r))
  /\ (forall cfg e (st : State R),
        configs b !! "graph_rewriter_config" = Some cfg ->
        graph_rewriter_builder_build R cfg = Raise e ->
        delegate FLAGS b r st
        = (Raise e,
           {| fs := fs st; trace := trace st ++ [EvGraphRewriter cfg] |})).
Proof.
  split; [| split].
  - unfold delegate.
    eapply emits_bind_returns; [| apply build_graph_hook_returns |].
    + unfold build_graph_hook. emits_walk. by intros args Heq.
    + intros hook ->. unfold call_trainer, print.
      emits_walk; intros args Heq; inversion Heq; by subst.
  - intros Hnone. unfold delegate, build_graph_hook. rewrite Hnone.
    unfold call_trainer, print. emits_walk; exact I.
  - intros cfg e st Hsome Hbuild.
    unfold delegate, build_graph_hook. rewrite Hsome.
    unfold bind, emit, lift. simpl. by rewrite Hbuild.
Qed.

End RunEnd.

Lemma tuning_flags_passed_on_witness :
  Forall (trains_with (passes_flags Sim.pipeline_flags))
    (trace (snd (main Sim.pipeline_flags (Sim.start None Hang (Ok tt))))).
Proof.
  destruct (tuning_flags_passed_on (R := Sim.runtime None Hang (Ok tt))
              Sim.pipeline_flags (Sim.start None Hang (Ok tt)) _ _
              (surjective_pairing _))
    as (evs & Ht & Hevs).
  rewrite Ht. exact Hevs.
Defined.

Lemma separate_paths_mode_witness :
  Forall (from_separate_only separate_flags)
    (trace (snd (main separate_flags (Sim.start None Hang (Ok tt))))).
Proof.
  destruct (separate_paths_mode (R := Sim.runtime None Hang (Ok tt))
              separate_flags (Sim.start None Hang (Ok tt)) _ _
              eq_refl (surjective_pairing _))
    as (evs & Ht & Hevs).
  rewrite Ht. exact Hevs.
Defined.

Lemma copies_stay_in_train_dir_witness :
  Forall (copies_into "/train")
    (trace (snd (main separate_flags (Sim.start None Hang (Ok tt))))).
Proof.
  destruct (copies_stay_in_train_dir (R := Sim.runtime None Hang (Ok tt))
              separate_flags (Sim.start None Hang (Ok tt)) _ _
              (surjective_pairing _))
    as (evs & Ht & Hevs).
  rewrite Ht. exact Hevs.
Defined.

Lemma removes_only_train_dir_witness :
  Forall not_rmtree
    (trace (snd (main Sim.pipeline_flags (Sim.start None Hang (Ok tt))))).
Proof.
  destruct (removes_only_train_dir (R := Sim.runtime None Hang (Ok tt))
              Sim.pipeline_flags (Sim.start None Hang (Ok tt)) _ _
              (surjective_pairing _))
    as (evs & Ht & _ & Hevs).
  rewrite Ht. apply Hevs. by left.
Defined.

Lemma trainer_called_last_witness :
  exists before after,
    trace (snd (main Sim.pipeline_flags
                  (Sim.start None Hang
                     (Raise (RuntimeError "Graph is finalized")))))
    = (before ++ after)%list
    /\ Forall not_train before
    /\ training_end (R := Sim.runtime None Hang
                             (Raise (RuntimeError "Graph is finalized")))
         (Ok tt)
         (("/train/pipeline.config", Sim.File "model { } train_config { }")
          :: Sim.disk)
         after.
Proof.
  destruct (trainer_called_last
              (R := Sim.runtime None Hang
                      (Raise (RuntimeError "Graph is finalized")))
              Sim.pipeline_flags
              (Sim.start None Hang (Raise (RuntimeError "Graph is finalized")))
              _ _ (surjective_pairing _))
    as (before & after & Ht & Hb & Ha).
  exists before, after. rewrite Ht.
  split; [reflexivity |]. split; [exact Hb | exact Ha].
Defined.

Lemma graph_hook_from_bundle_witness :
  Forall no_graph_rewriter
    (trace (snd (delegate Sim.pipeline_flags overridden_example lonely_worker
                   (Sim.start None Hang (Ok tt)))))
  /\ Forall (trains_with
               (fun args =>
                  arg_graph_hook_fn args
                  = Some (OtherMsg "graph_rewriter" "quantization { }")))
       (trace (snd (delegate Sim.pipeline_flags rewriter_example
                      lonely_worker (Sim.start None Hang (Ok tt))))).
Proof.
  split.
  - destruct (graph_hook_from_bundle (R := Sim.runtime None Hang (Ok tt))
                Sim.pipeline_flags overridden_example lonely_worker)
      as (_ & Hnone & _).
    destruct (Hnone eq_refl (Sim.start None Hang (Ok tt)) _ _
                (surjective_pairing _))
      as (evs & Ht & Hevs).
    rewrite Ht. exact Hevs.
  - destruct (graph_hook_from_bundle (R := Sim.runtime None Hang (Ok tt))
                Sim.pipeline_flags rewriter_example lonely_worker)
      as (Hhook & _).
    destruct (Hhook (Sim.start None Hang (Ok tt)) _ _
                (surjective_pairing _))
      as (evs & Ht & Hevs).
    rewrite Ht. exact Hevs.
Defined.

(** ** Whole runs *)

Section WholeRuns.

Context {R : Runtime}.
Variable FLAGS : Flags.

(** X18: in distributed mode, a task entry without ['type'] or without
    ['index'] makes role resolution raise [AttributeError] before the
    server is created: the only call made is the construction of the
    cluster specification. *)
Theorem incomplete_task_fails_before_server (d : Descriptor)
    (st : State R) wr ps spec :
  count_workers (cluster_data d) = Ok wr ->
  count_ps (cluster_data d) = Ok ps ->
  0 < ps ->
  ClusterSpec R (inr (cluster d)) = Ok spec ->
  dict_get "type" (task_info d) = None
  \/ dict_get "index" (task_info d) = None ->
  derive_role d st
  = (Raise AttributeError,
     {| fs := fs st; trace := trace st ++ [EvClusterSpec] |}).
Proof.
  intros Hwr Hps Hp0 Hspec Hmissing.
  pose proof (count_workers_positive _ _ Hwr) as Hw1.
  unfold derive_role, bind, lift. rewrite Hwr, Hps.
  assert ((ps <? 1) = false) as -> by lia.
  assert ((wr >=? 1) = true) as -> by lia.
  assert ((ps >? 0) = true) as -> by lia.
  rewrite andb_false_r. simpl.
  unfold start_server, bind, lift, emit, ret, getattr.
  rewrite Hspec. simpl.
  destruct Hmissing as [-> | Hidx]; [done |].
  rewrite Hidx. by destruct (dict_get "type" (task_info d)).
Qed.

(** X19: in combined mode, when the copy of the pipeline file into the
    training directory raises, [main] ends with that exception: the
    directory has been created and the bundle loaded, but neither the
    server nor the trainer is called. *)
Theorem failed_copy_is_fatal (st st1 : State R) made loaded left e :
  FLAGS_train_dir FLAGS <> "" ->
  FLAGS_pipeline_config_path FLAGS <> "" ->
  FLAGS_task FLAGS = 0 ->
  reset_train FLAGS st = (Ok tt, st1) ->
  gfile_MakeDirs R (FLAGS_train_dir FLAGS) (fs st1) = (Ok tt, made) ->
  get_configs_from_pipeline_file R (FLAGS_pipeline_config_path FLAGS) made
  = Ok loaded ->
  gfile_Copy R (FLAGS_pipeline_config_path FLAGS)
    (os_path_join (FLAGS_train_dir FLAGS) "pipeline.config") made
  = (Raise e, left) ->
  main FLAGS st
  = (Raise e,
     {| fs := left;
        trace := trace st1
                 ++ [EvMakeDirs (FLAGS_train_dir FLAGS);
                     EvPipelineFile (FLAGS_pipeline_config_path FLAGS);
                     EvCopy (FLAGS_pipeline_config_path FLAGS)
                       (os_path_join (FLAGS_train_dir FLAGS)
                          "pipeline.config")] |}).
Proof.
  intros Hdir Hpath Htask Hreset Hmk Hload Hcopy.
  rewrite (main_after_reset _ _ _ Hdir Hreset).
  unfold load_configs. rewrite Htask, (pipeline_path_nonempty _ Hpath).
  unfold when, gfile_copy, bind, emit, on_fs, read_fs, ret. simpl.
  rewrite Hmk. simpl. rewrite Hload. simpl. rewrite Hcopy. simpl.
  by rewrite <- !app_assoc.
Qed.

(** X20: a run of a single process in combined mode in which every call
    succeeds: with the [task] flag at 0, no reset, no step override, no
    [TF_CONFIG] and no graph rewriter, [main] creates the training
    directory, loads the bundle, copies the pipeline file, prints its pid
    and calls the trainer with the loaded messages and the parameters of a
    single worker, in that order and nothing else, and returns when the
    trainer does. *)
Theorem single_process_run (st : State R) made loaded copied trained
    model training input :
  FLAGS_train_dir FLAGS <> "" ->
  FLAGS_pipeline_config_path FLAGS <> "" ->
  FLAGS_reset_train FLAGS = 0 ->
  FLAGS_task FLAGS = 0 ->
  FLAGS_n_steps FLAGS <= 0 ->
  gfile_MakeDirs R (FLAGS_train_dir FLAGS) (fs st) = (Ok tt, made) ->
  get_configs_from_pipeline_file R (FLAGS_pipeline_config_path FLAGS) made
  = Ok loaded ->
  gfile_Copy R (FLAGS_pipeline_config_path FLAGS)
    (os_path_join (FLAGS_train_dir FLAGS) "pipeline.config") made
  = (Ok tt, copied) ->
  loaded !! "model" = Some model ->
  loaded !! "train_config" = Some training ->
  loaded !! "train_input_config" = Some input ->
  loaded !! "graph_rewriter_config" = None ->
  os_environ_TF_CONFIG R = None ->
  json_loads R "{}" = Ok (JObj []) ->
  let args :=
    train_args FLAGS
      {| configs := loaded; model_config := model;
         train_config := training; input_config := input |}
      lonely_worker None in
  trainer_train R args copied = (Ok tt, trained) ->
  main FLAGS st
  = (Ok tt,
     {| fs := trained;
        trace := trace st
                 ++ [EvMakeDirs (FLAGS_train_dir FLAGS);
                     EvPipelineFile (FLAGS_pipeline_config_path FLAGS);
                     EvCopy (FLAGS_pipeline_config_path FLAGS)
                       (os_path_join (FLAGS_train_dir FLAGS)
                          "pipeline.config");
                     EvPrint ("pid: " +:+ str_of_Z (os_getpid R));
                     EvTrain args] |}).
Proof.
  intros Hdir Hpath Hreset Htask Hn Hmk Hload Hcopy Hm Ht Hi Hg Henv Hjson
    args Htrain.
  rewrite (main_after_reset _ st st Hdir
             (reset_train_inactive _ _ (or_introl Hreset))).
  assert ((FLAGS_n_steps FLAGS >? 0) = false) as Hgt by lia.
  unfold load_configs, select_configs, configs_getitem.
  rewrite Htask, (pipeline_path_nonempty _ Hpath), Hgt.
  unfold after_prepare, resolve_role, read_descriptor, delegate,
    build_graph_hook, call_trainer, try_except, print.
  unfold when, gfile_copy, bind, emit, on_fs, read_fs, ret, lift, raise.
  simpl. rewrite Hmk. simpl. rewrite Hload. simpl. rewrite Hcopy. simpl.
  rewrite Hm, Ht. simpl. rewrite Hi. simpl.
  rewrite Henv. simpl. rewrite Hjson. simpl. rewrite Hg. simpl.
  subst args. unfold lonely_worker in Htrain |- *. rewrite Htrain.
  simpl. by rewrite <- !app_assoc.
Qed.

End WholeRuns.

Lemma incomplete_task_fails_before_server_witness :
  fst (derive_role
         (example_descriptor None Hang (Ok tt) [("type", JStr "worker")])
         (Sim.start None Hang (Ok tt)))
  = Raise AttributeError.
Proof.
  erewrite (incomplete_task_fails_before_server
              (R := Sim.runtime None Hang (Ok tt)) _ _ 2 1);
    [reflexivity | reflexivity | reflexivity | lia | reflexivity
    | by right ].
Defined.

Lemma single_process_run_witness :
  fst (main Sim.pipeline_flags (Sim.start None Hang (Ok tt))) = Ok tt.
Proof.
  erewrite (single_process_run (R := Sim.runtime None Hang (Ok tt))
              Sim.pipeline_flags (Sim.start None Hang (Ok tt)));
    [reflexivity | discriminate | discriminate | reflexivity | reflexivity
    | simpl; lia | reflexivity | reflexivity | reflexivity | reflexivity
    | reflexivity | reflexivity | reflexivity | reflexivity | reflexivity
    | reflexivity ].
Defined.

Lemma failed_copy_is_fatal_witness :
  main Sim.pipeline_flags (Build_State (R := readonly_runtime) Sim.disk [])
  = (Raise Sim.OSError,
     Build_State (R := readonly_runtime) Sim.disk
       [EvMakeDirs "/train";
        EvPipelineFile "/cfg/pipeline.config";
        EvCopy "/cfg/pipeline.config" "/train/pipeline.config"]).
Proof.
  eapply (failed_copy_is_fatal (R := readonly_runtime) Sim.pipeline_flags
            (Build_State (R := readonly_runtime) Sim.disk [])
            (Build_State (R := readonly_runtime) Sim.disk [])).
  - discriminate.
  - discriminate.
  - reflexivity.
  - reflexivity.
  - reflexivity.
  - reflexivity.
  - reflexivity.
Defined.
